(** * Authentication and role slice of the portfolio admin panel

    A shallow embedding of
    - [AuthService] (lib/auth.ts): the process-wide cache of the signed-in
      identity, its profile row and the system settings, with the
      operations [initialize], [signIn], [signUp], [signOut], [createUser]
      and the role check [hasRole];
    - the [useAuth] hook (hooks/useAuth.ts): the component state bound to
      that cache, with the derived flags [isSuperAdmin], [isAdmin],
      [isEditor];
    - the three route guards of App.tsx.

    The backend client is an external collaborator: every remote call is
    answered by an arbitrary [Backend], and every theorem quantifies over
    all of them. *)

From Stdlib Require Import ZArith.
From stdpp Require Import base decidable option list strings gmap.

Local Open Scope string_scope.
Local Open Scope Z_scope.

(** ** JavaScript values and operators used by the role check *)

Module Js.

(** The names every object literal inherits from [Object.prototype]. *)
Definition Object_prototype_keys : list string :=
  [ "constructor"; "hasOwnProperty"; "isPrototypeOf";
    "propertyIsEnumerable"; "toLocaleString"; "toString"; "valueOf";
    "__proto__"; "__defineGetter__"; "__defineSetter__";
    "__lookupGetter__"; "__lookupSetter__" ].

(** What reading [obj[key]] on a [Record<string, number>] literal can
    give: a number (own property), a member inherited from
    [Object.prototype] (a function object, or the prototype itself for
    [__proto__]), or [undefined]. *)
Inductive value : Type :=
| undefined
| number (n : Z)
| inherited (key : string).

(** [obj[key]] for an object literal whose own properties are [own]:
    own properties first, then the prototype chain. *)
Definition get (own : gmap string Z) (key : string) : value :=
  match own !! key with
  | Some n => number n
  | None =>
      if bool_decide (key ∈ Object_prototype_keys) then inherited key
      else undefined
  end.

(** ToBoolean: [undefined] and [0] are falsy, objects are truthy. *)
Definition truthy (v : value) : bool :=
  match v with
  | undefined => false
  | number n => negb (n =? 0)
  | inherited _ => true
  end.

(** [a || b] *)
Definition or (a b : value) : value := if truthy a then a else b.

(** ToNumber; [None] is NaN.  A function object, like
    [Object.prototype] itself, converts through its string form, which
    is not a numeric literal. *)
Definition to_number (v : value) : option Z :=
  match v with
  | number n => Some n
  | undefined => None
  | inherited _ => None
  end.

(** ToPrimitive of an inherited member: [valueOf] hands the object back,
    so its [toString] decides.  A native function prints as its source
    text with its name ([constructor] is the function [Object]), and
    [Object.prototype], which [__proto__] reads, as [[object Object]].
    Engines differ in the white space of the source text only, after the
    name, where no comparison of two of these strings gets. *)
Definition to_string (key : string) : string :=
  if bool_decide (key = "__proto__") then "[object Object]"
  else
    "function "
    ++ (if bool_decide (key = "constructor") then "Object" else key)
    ++ "() { [native code] }".

(** [a >= b].  Two objects both convert to strings and are compared as
    strings, by code units; in every other case both sides are converted
    to numbers, and the answer is false as soon as one is NaN. *)
Definition ge (a b : value) : bool :=
  match a, b with
  | inherited ka, inherited kb => negb (String.ltb (to_string ka) (to_string kb))
  | _, _ =>
      match to_number a, to_number b with
      | Some x, Some y => x >=? y
      | _, _ => false
      end
  end.

(** A thrown or returned error object ([Error], [AuthError],
    [PostgrestError]): its message and, for database errors, its code. *)
Record error : Type := Error { message : string; code : option string }.

(** A JSON value, for the columns typed [Record<string, any>] and
    [jsonb]. *)
#[local] Unset Elimination Schemes.
Inductive json : Type :=
| JNull
| JBool (b : bool)
| JNumber (literal : string)
| JString (s : string)
| JArray (items : list json)
| JObject (fields : list (string * json)).
#[local] Set Elimination Schemes.

End Js.

(** ** Data model (lib/auth.ts) *)

Module User.
Record t : Type := mk { id : string; email : option string }.
End User.

(** A session always carries its user, so [session?.user] is non-null
    exactly when [session] is. *)
Module Session.
Record t : Type := mk { user : User.t; access_token : string }.
End Session.

(** [interface UserProfile].  [role] and [status] are the strings the
    profile row carries at run time; the interface types them as the
    unions [valid_role] and [valid_status]. *)
Module UserProfile.
Record t : Type := mk {
  id : string;
  username : option string;
  full_name : option string;
  avatar_url : option string;
  role : string;
  status : string;
  email_verified : bool;
  last_login_at : option string;
  login_attempts : Z;
  locked_until : option string;
  preferences : Js.json;
  metadata : Js.json;
  created_at : string;
  updated_at : string
}.

(** ['super_admin' | 'admin' | 'editor' | 'user'] *)
Definition valid_role (r : string) : Prop :=
  r ∈ ["super_admin"; "admin"; "editor"; "user"].

(** ['active' | 'suspended' | 'pending' | 'banned'] *)
Definition valid_status (s : string) : Prop :=
  s ∈ ["active"; "suspended"; "pending"; "banned"].
End UserProfile.

(** The role hierarchy as the specification words it:
    user < editor < admin < super_admin. *)
Module Role.
Inductive t : Type := user | editor | admin | super_admin.

Definition name (r : t) : string :=
  match r with
  | user => "user"
  | editor => "editor"
  | admin => "admin"
  | super_admin => "super_admin"
  end.

(** Position in the chain user < editor < admin < super_admin. *)
Definition rank (r : t) : nat :=
  match r with
  | user => 0
  | editor => 1
  | admin => 2
  | super_admin => 3
  end.
End Role.

(** A converted setting: [true]/[false], a number (kept as its literal),
    or the raw column value. *)
Inductive setting : Type :=
| SBool (b : bool)
| SNumber (literal : string)
| SRaw (v : Js.json).

(** [interface SystemSettings].  The fields hold whatever the conversion
    in [loadSystemSettings] produced. *)
Module SystemSettings.
Record t : Type := mk {
  global_signup_enabled : setting;
  email_verification_required : setting;
  password_min_length : setting;
  max_login_attempts : setting;
  session_timeout_hours : setting
}.
End SystemSettings.

(** ** The backend client *)

(** The object [createMissingProfile] inserts. *)
Record ProfileData : Type := mkProfileData {
  pd_id : string;
  pd_role : string;
  pd_status : string;
  pd_email_verified : bool;
  pd_login_attempts : Z;
  pd_preferences : Js.json;
  pd_metadata : Js.json
}.

(** Every remote request the slice issues, with its arguments. *)
Inductive Call : Type :=
| auth_getSession
| auth_getUser
| auth_signInWithPassword (email password : string)
| auth_signUp (email password : string) (fullName : option string)
| auth_signOut
| auth_admin_createUser (email password fullName : string)
| user_profiles_select_single (userId : string)
| user_profiles_insert_single (profileData : ProfileData)
| user_profiles_upsert (userId fullName role : string)
| user_profiles_update_last_login (userId last_login_at : string)
| system_settings_select
| login_attempts_insert (email : string) (success : bool)
    (error_type : option string) (user_agent : string).

(** How an awaited promise settles. *)
Inductive outcome (A : Type) : Type :=
| Resolved (a : A)
| Rejected (e : Js.error).
Arguments Resolved {A} a.
Arguments Rejected {A} e.

Record SettingRow : Type := mkSettingRow {
  setting_key : string;
  setting_value : Js.json
}.

(** [{ data: { user, session }, error }] *)
Record AuthData : Type := mkAuthData {
  data_user : option User.t;
  data_session : option Session.t
}.

(** The external collaborator.  Each endpoint answers as a function of
    the whole request history (the request being answered is the last
    entry), so a backend may answer the same request differently over
    time.  [Number] is the JavaScript conversion ([None] for NaN), and
    [userAgent] and [toISOString] stand for [navigator.userAgent] and
    [new Date().toISOString()]. *)
Record Backend : Type := mkBackend {
  getSession : list Call -> outcome (option Session.t * option Js.error);
  getUser : list Call -> outcome (option User.t * option Js.error);
  signInWithPassword : list Call -> outcome (AuthData * option Js.error);
  signUp_response : list Call -> outcome (option User.t * option Js.error);
  signOut_response : list Call -> outcome (option Js.error);
  admin_createUser : list Call -> outcome (option User.t * option Js.error);
  select_profile :
    list Call -> outcome (option UserProfile.t * option Js.error);
  insert_profile :
    list Call -> outcome (option UserProfile.t * option Js.error);
  upsert_profile : list Call -> outcome (option Js.error);
  update_profile : list Call -> outcome (option Js.error);
  select_settings :
    list Call -> outcome (option (list SettingRow) * option Js.error);
  insert_login_attempt : list Call -> outcome (option Js.error);
  Number : Js.json -> option string;
  userAgent : string;
  toISOString : list Call -> string
}.

(** ** Asynchronous methods as state transformers

    A method body runs on a state [S] and completes normally with a value
    or abruptly with a thrown error; the state reached so far survives a
    throw, as assignments to [this] do. *)

Inductive completion (A : Type) : Type :=
| Normal (a : A)
| Throw (e : Js.error).
Arguments Normal {A} a.
Arguments Throw {A} e.

Definition M (S A : Type) : Type := S -> completion A * S.

Definition ret {S A} (a : A) : M S A := fun s => (Normal a, s).

Definition bind {S A B} (m : M S A) (k : A -> M S B) : M S B :=
  fun s =>
    match m s with
    | (Normal a, s') => k a s'
    | (Throw e, s') => (Throw e, s')
    end.

Definition throw {S A} (e : Js.error) : M S A := fun s => (Throw e, s).

(** [try { m } catch (error) { handler error }] *)
Definition try_catch {S A} (m : M S A) (handler : Js.error -> M S A)
  : M S A :=
  fun s =>
    match m s with
    | (Normal a, s') => (Normal a, s')
    | (Throw e, s') => handler e s'
    end.

Definition get {S} : M S S := fun s => (Normal s, s).
Definition modify {S} (f : S -> S) : M S unit := fun s => (Normal tt, f s).

(** Run a computation on a component of the state. *)
Definition lift {S T A} (proj : T -> S) (inj : S -> T -> T) (m : M S A)
  : M T A :=
  fun t => let (c, s') := m (proj t) in (c, inj s' t).

(** stdpp's monad notations: [x ← m; k], [m;; k] and ['pat ← m; k]. *)
#[global] Instance M_ret {S} : MRet (M S) := fun A => @ret S A.
#[global] Instance M_bind {S} : MBind (M S) :=
  fun A B k m => @bind S A B m k.

(** ** AuthService (lib/auth.ts) *)

(** [{ user, session, error }], the result of [signIn]. *)
Module SignInResult.
Record t : Type := mk {
  user : option User.t;
  session : option Session.t;
  error : option Js.error
}.
End SignInResult.

(** [{ user, error }], the result of [signUp] and [createUser]. *)
Module UserResult.
Record t : Type := mk { user : option User.t; error : option Js.error }.
End UserResult.

(** [{ error }], the result of [signOut]. *)
Module SignOutResult.
Record t : Type := mk { error : option Js.error }.
End SignOutResult.

Module AuthService.

(** The private fields of the singleton. *)
Record t : Type := mk {
  currentUser : option User.t;
  currentProfile : option UserProfile.t;
  settings : option SystemSettings.t;
  initialized : bool
}.

(** [new AuthService()] *)
Definition new : t := mk None None None false.

(** The singleton together with the requests it has sent so far. *)
Record world : Type := mkWorld { this : t; calls : list Call }.

Definition set_currentUser (u : option User.t) : M world unit :=
  modify (fun w =>
    mkWorld (mk u (currentProfile (this w)) (settings (this w))
               (initialized (this w))) (calls w)).

Definition set_currentProfile (p : option UserProfile.t) : M world unit :=
  modify (fun w =>
    mkWorld (mk (currentUser (this w)) p (settings (this w))
               (initialized (this w))) (calls w)).

Definition set_settings (x : option SystemSettings.t) : M world unit :=
  modify (fun w =>
    mkWorld (mk (currentUser (this w)) (currentProfile (this w)) x
               (initialized (this w))) (calls w)).

Definition set_initialized (b : bool) : M world unit :=
  modify (fun w =>
    mkWorld (mk (currentUser (this w)) (currentProfile (this w))
               (settings (this w)) b) (calls w)).

(** [await] of one request: the request is recorded, and the promise
    settles as the backend decides; a rejection is thrown. *)
Definition await {A} (c : Call) (answer : list Call -> outcome A)
  : M world A :=
  fun w =>
    let history := (calls w ++ [c])%list in
    match answer history with
    | Resolved a => (Normal a, mkWorld (this w) history)
    | Rejected e => (Throw e, mkWorld (this w) history)
    end.

(** *** Getters and role check *)

Definition getCurrentUser (s : t) : option User.t := currentUser s.
Definition getCurrentProfile (s : t) : option UserProfile.t :=
  currentProfile s.
Definition getSystemSettings (s : t) : option SystemSettings.t :=
  settings s.

(** [const roleHierarchy: Record<string, number>] *)
Definition roleHierarchy : gmap string Z :=
  <["super_admin" := 4]> (<["admin" := 3]> (<["editor" := 2]>
    (<["user" := 1]> ∅))).

Definition hasRole (s : t) (role : string) : bool :=
  match currentProfile s with
  | None => false
  | Some profile =>
      if bool_decide (UserProfile.status profile ≠ "active") then false
      else
        let userLevel :=
          Js.or (Js.get roleHierarchy (UserProfile.role profile))
                (Js.number 0) in
        let requiredLevel :=
          Js.or (Js.get roleHierarchy role) (Js.number 0) in
        Js.ge userLevel requiredLevel
  end.

Definition isActive (s : t) : bool :=
  match currentProfile s with
  | None => false
  | Some profile => bool_decide (UserProfile.status profile = "active")
  end.

Section Methods.
Variable supabase : Backend.

(** *** Profile loading *)

Definition createMissingProfile (userId : string) : M world unit :=
  try_catch
    (_ ← await auth_getUser (getUser supabase);
     let profileData :=
       mkProfileData userId "user" "active" true 0
         (Js.JObject []) (Js.JObject []) in
     '(data, error) ← await (user_profiles_insert_single profileData)
                        (insert_profile supabase);
     match error with
     | Some _ => mret tt
     | None => set_currentProfile data
     end)
    (fun _ => mret tt).

Definition loadUserProfile (userId : string) : M world unit :=
  try_catch
    ('(profile, error) ← await (user_profiles_select_single userId)
                           (select_profile supabase);
     match error with
     | Some e =>
         if bool_decide (Js.code e = Some "PGRST116")
         then createMissingProfile userId
         else set_currentProfile None
     | None => set_currentProfile profile
     end)
    (fun _ => set_currentProfile None).

(** *** System settings *)

Definition setDefaultSettings : M world unit :=
  set_settings (Some (SystemSettings.mk
    (SBool true) (SBool false) (SNumber "8") (SNumber "5") (SNumber "24"))).

(** The type conversion of one [setting_value]. *)
Definition convert (value : Js.json) : setting :=
  match value with
  | Js.JString "true" => SBool true
  | Js.JString "false" => SBool false
  | _ =>
      match Number supabase value with
      | Some n => SNumber n
      | None => SRaw value
      end
  end.

(** [data?.forEach(setting => settings[setting.setting_key] = ...)] *)
Definition collect (data : option (list SettingRow)) : gmap string setting :=
  foldl (fun acc row => <[setting_key row := convert (setting_value row)]> acc)
        ∅ (default [] data).

(** [x ?? d] on a property read *)
Definition nullish (x : option setting) (d : setting) : setting :=
  default d x.

Definition loadSystemSettings : M world unit :=
  try_catch
    ('(data, error) ← await system_settings_select (select_settings supabase);
     match error with
     | Some _ => setDefaultSettings
     | None =>
         let settings := collect data in
         set_settings (Some (SystemSettings.mk
           (nullish (settings !! "global_signup_enabled") (SBool true))
           (nullish (settings !! "email_verification_required") (SBool false))
           (nullish (settings !! "password_min_length") (SNumber "8"))
           (nullish (settings !! "max_login_attempts") (SNumber "5"))
           (nullish (settings !! "session_timeout_hours") (SNumber "24"))))
     end)
    (fun _ => setDefaultSettings).

(** *** initialize *)

Definition initialize : M world unit :=
  w ← get;
  if initialized (this w) then mret tt
  else
    try_catch
      ('(session, error) ← await auth_getSession (getSession supabase);
       match session with
       | Some sess =>
           set_currentUser (Some (Session.user sess));;
           loadUserProfile (User.id (Session.user sess))
       | None => mret tt
       end;;
       loadSystemSettings;;
       set_initialized true)
      (fun _ => set_initialized true).

(** *** Utilities *)

Definition logLoginAttempt (email : string) (success : bool)
  (errorType : option string) : M world unit :=
  try_catch
    (_ ← await (login_attempts_insert email success errorType
                  (userAgent supabase))
           (insert_login_attempt supabase);
     mret tt)
    (fun _ => mret tt).

Definition updateLastLogin (userId : string) : M world unit :=
  try_catch
    (w ← get;
     _ ← await (user_profiles_update_last_login userId
                  (toISOString supabase (calls w)))
           (update_profile supabase);
     mret tt)
    (fun _ => mret tt).

(** *** signIn, signUp, signOut, createUser *)

Definition signIn (email password : string) (rememberMe : bool)
  : M world SignInResult.t :=
  try_catch
    ('(data, error) ← await (auth_signInWithPassword email password)
                        (signInWithPassword supabase);
     match error with
     | Some e =>
         logLoginAttempt email false (Some (Js.message e));;
         mret (SignInResult.mk None None (Some e))
     | None =>
         match data_user data with
         | Some u =>
             set_currentUser (Some u);;
             loadUserProfile (User.id u);;
             updateLastLogin (User.id u);;
             logLoginAttempt email true None
         | None => mret tt
         end;;
         mret (SignInResult.mk (data_user data) (data_session data) None)
     end)
    (fun e => mret (SignInResult.mk None None (Some e))).

Definition signUp (email password : string) (fullName : option string)
  : M world UserResult.t :=
  try_catch
    ('(user, error) ← await (auth_signUp email password fullName)
                        (signUp_response supabase);
     match error with
     | Some e => mret (UserResult.mk None (Some e))
     | None => mret (UserResult.mk user None)
     end)
    (fun e => mret (UserResult.mk None (Some e))).

Definition signOut : M world SignOutResult.t :=
  try_catch
    (error ← await auth_signOut (signOut_response supabase);
     match error with
     | None => set_currentUser None;; set_currentProfile None
     | Some _ => mret tt
     end;;
     mret (SignOutResult.mk error))
    (fun e => mret (SignOutResult.mk (Some e))).

Definition createUser (email password fullName role : string)
  : M world UserResult.t :=
  try_catch
    (w ← get;
     (if negb (hasRole (this w) "admin")
      then throw (Js.Error "Permissions insuffisantes" None)
      else mret tt);;
     '(user, error) ← await (auth_admin_createUser email password fullName)
                        (admin_createUser supabase);
     match error with
     | Some e => throw e
     | None =>
         match user with
         | Some u =>
             _ ← await (user_profiles_upsert (User.id u) fullName role)
                   (upsert_profile supabase);
             mret tt
         | None => mret tt
         end;;
         mret (UserResult.mk user None)
     end)
    (fun e => mret (UserResult.mk None (Some e))).

Definition isSignupEnabled : M world setting :=
  w ← get;
  match settings (this w) with
  | None => loadSystemSettings
  | Some _ => mret tt
  end;;
  w' ← get;
  mret (match settings (this w') with
        | Some x => SystemSettings.global_signup_enabled x
        | None => SBool true
        end).

End Methods.
End AuthService.

(** ** The useAuth hook (hooks/useAuth.ts) *)

(** [haystack.includes(needle)] on strings *)
Definition includes (haystack needle : string) : bool :=
  match String.index 0 needle haystack with
  | Some _ => true
  | None => false
  end.

Module useAuth.

(** The eight [useState] cells of one component using the hook. *)
Record state : Type := mk {
  authUser : option User.t;
  profile : option UserProfile.t;
  session : option Session.t;
  loading : bool;
  initializing : bool;
  isAdmin : bool;
  isEditor : bool;
  isSuperAdmin : bool
}.

(** The initial values passed to [useState]. *)
Definition initial : state := mk None None None true true false false false.

Definition setAuthUser (x : option User.t) (h : state) : state :=
  mk x (profile h) (session h) (loading h) (initializing h)
     (isAdmin h) (isEditor h) (isSuperAdmin h).
Definition setProfile (x : option UserProfile.t) (h : state) : state :=
  mk (authUser h) x (session h) (loading h) (initializing h)
     (isAdmin h) (isEditor h) (isSuperAdmin h).
Definition setSession (x : option Session.t) (h : state) : state :=
  mk (authUser h) (profile h) x (loading h) (initializing h)
     (isAdmin h) (isEditor h) (isSuperAdmin h).
Definition setLoading (x : bool) (h : state) : state :=
  mk (authUser h) (profile h) (session h) x (initializing h)
     (isAdmin h) (isEditor h) (isSuperAdmin h).
Definition setInitializing (x : bool) (h : state) : state :=
  mk (authUser h) (profile h) (session h) (loading h) x
     (isAdmin h) (isEditor h) (isSuperAdmin h).
Definition setIsAdmin (x : bool) (h : state) : state :=
  mk (authUser h) (profile h) (session h) (loading h) (initializing h)
     x (isEditor h) (isSuperAdmin h).
Definition setIsEditor (x : bool) (h : state) : state :=
  mk (authUser h) (profile h) (session h) (loading h) (initializing h)
     (isAdmin h) x (isSuperAdmin h).
Definition setIsSuperAdmin (x : bool) (h : state) : state :=
  mk (authUser h) (profile h) (session h) (loading h) (initializing h)
     (isAdmin h) (isEditor h) x.

(** [updateRoles(userProfile)]: the setters are applied in source order. *)
Definition updateRoles (userProfile : option UserProfile.t) (h : state)
  : state :=
  match userProfile with
  | Some p =>
      if bool_decide (UserProfile.status p ≠ "active")
      then setIsEditor false (setIsAdmin false (setIsSuperAdmin false h))
      else
        let newIsSuperAdmin :=
          bool_decide (UserProfile.role p = "super_admin") in
        let newIsAdmin :=
          bool_decide (UserProfile.role p ∈ ["super_admin"; "admin"]) in
        let newIsEditor :=
          bool_decide
            (UserProfile.role p ∈ ["super_admin"; "admin"; "editor"]) in
        setIsEditor newIsEditor
          (setIsAdmin newIsAdmin (setIsSuperAdmin newIsSuperAdmin h))
  | None => setIsEditor false (setIsAdmin false (setIsSuperAdmin false h))
  end.

(** One mounted component: the shared service with its request history,
    the component's state cells, and the [mounted] variable of its
    effect.  A handler runs to completion before the next one starts,
    and the setter calls of one handler take effect together, as React
    batches them into one render. *)
Record component : Type := mkComponent {
  service : AuthService.world;
  view : state;
  mounted : bool
}.

Definition on_service {A} (m : M AuthService.world A) : M component A :=
  lift service (fun s c => mkComponent s (view c) (mounted c)) m.

Definition set (f : state -> state) : M component unit :=
  modify (fun c => mkComponent (service c) (f (view c)) (mounted c)).

Section Hook.
Variable supabase : Backend.

(** [setProfile(userProfile); updateRoles(userProfile);] with
    [userProfile = authService.getCurrentProfile()] *)
Definition read_profile : M component unit :=
  c ← get;
  let userProfile :=
    AuthService.getCurrentProfile (AuthService.this (service c)) in
  set (setProfile userProfile);;
  set (updateRoles userProfile).

(** [setProfile(null); updateRoles(null);] *)
Definition clear_profile : M component unit :=
  set (setProfile None);;
  set (updateRoles None).

(** The [initialize] closure of the mount effect. *)
Definition initialize : M component unit :=
  try_catch
    (on_service (AuthService.initialize supabase);;
     c ← get;
     if negb (mounted c) then mret tt
     else
       '(session, error) ← on_service
          (AuthService.await auth_getSession (getSession supabase));
       match error with
       | Some e =>
           if includes (Js.message e) "refresh_token_not_found"
              || includes (Js.message e) "Refresh Token Not Found"
           then _ ← on_service (AuthService.signOut supabase); mret tt
           else mret tt
       | None => mret tt
       end;;
       c' ← get;
       if mounted c' then
         set (setSession session);;
         set (setAuthUser (Session.user <$> session));;
         match session with
         | Some _ => read_profile
         | None => clear_profile
         end;;
         set (setLoading false);;
         set (setInitializing false)
       else mret tt)
    (fun _ =>
       c ← get;
       if mounted c then
         set (setLoading false);;
         set (setInitializing false)
       else mret tt).

(** The [onAuthStateChange] listener. *)
Definition onAuthStateChange (event : string) (session : option Session.t)
  : M component unit :=
  c ← get;
  if negb (mounted c) then mret tt
  else
    set (setSession session);;
    set (setAuthUser (Session.user <$> session));;
    match session with
    | Some _ =>
        on_service (AuthService.initialize supabase);;
        read_profile
    | None => clear_profile
    end;;
    set (setLoading false);;
    set (setInitializing false).

(** The listener in two halves, cut at its one await.  [listener_begin]
    is what runs up to and including [await authService.initialize()],
    and tells whether a continuation is pending; [listener_resume] is
    that continuation.  Other handlers, the cleanup among them, can run
    between the two. *)
Definition listener_begin (event : string) (session : option Session.t)
  : M component bool :=
  c ← get;
  if negb (mounted c) then mret false
  else
    set (setSession session);;
    set (setAuthUser (Session.user <$> session));;
    match session with
    | Some _ =>
        on_service (AuthService.initialize supabase);;
        mret true
    | None =>
        clear_profile;;
        set (setLoading false);;
        set (setInitializing false);;
        mret false
    end.

Definition listener_resume : M component unit :=
  read_profile;;
  set (setLoading false);;
  set (setInitializing false).

(** The effect's cleanup. *)
Definition cleanup : M component unit :=
  modify (fun c => mkComponent (service c) (view c) false).

Definition signIn (email password : string) (rememberMe : bool)
  : M component SignInResult.t :=
  try_catch
    (result ← on_service
       (AuthService.signIn supabase email password rememberMe);
     match SignInResult.user result, SignInResult.error result with
     | Some _, None => read_profile
     | _, _ => mret tt
     end;;
     mret result)
    (fun err => mret (SignInResult.mk None None (Some err))).

Definition signOut : M component SignOutResult.t :=
  try_catch
    (result ← on_service (AuthService.signOut supabase);
     match SignOutResult.error result with
     | None =>
         set (setSession None);;
         set (setAuthUser None);;
         clear_profile
     | Some _ => mret tt
     end;;
     mret result)
    (fun err => mret (SignOutResult.mk (Some err))).

Definition signUp (email password : string) (fullName : option string)
  : M component UserResult.t :=
  try_catch
    (on_service (AuthService.signUp supabase email password fullName))
    (fun err => mret (UserResult.mk None (Some err))).

Definition createUser (email password fullName role : string)
  : M component UserResult.t :=
  try_catch
    (on_service
       (AuthService.createUser supabase email password fullName role))
    (fun err => mret (UserResult.mk None (Some err))).

End Hook.

Definition hasRole (c : component) (role : string) : bool :=
  AuthService.hasRole (AuthService.this (service c)) role.

Definition isActive (c : component) : bool :=
  AuthService.isActive (AuthService.this (service c)).

End useAuth.

(** ** Route guards (App.tsx) *)

(** What a guard returns: the loading placeholder, a [<Navigate to=...
    replace />] element, or its children. *)
Inductive rendered (ReactNode : Type) : Type :=
| Placeholder
| Navigate (to : string) (replace : bool)
| Children (children : ReactNode).
Arguments Placeholder {ReactNode}.
Arguments Navigate {ReactNode} to replace.
Arguments Children {ReactNode} children.

(** The guards of App.tsx that wait on [initializing]. *)
Module App.
Section Guards.
Context {ReactNode : Type}.

Definition ProtectedRoute (children : ReactNode) (h : useAuth.state)
  : rendered ReactNode :=
  if useAuth.initializing h then Placeholder
  else if negb (useAuth.isAdmin h) && negb (useAuth.isEditor h)
  then Navigate "/admin/login" true
  else Children children.

Definition AdminOnlyRoute (children : ReactNode) (h : useAuth.state)
  : rendered ReactNode :=
  if useAuth.initializing h then Placeholder
  else if negb (useAuth.isAdmin h) && negb (useAuth.isSuperAdmin h)
  then Navigate "/admin" true
  else Children children.

Definition SuperAdminOnlyRoute (children : ReactNode) (h : useAuth.state)
  : rendered ReactNode :=
  if useAuth.initializing h then Placeholder
  else if negb (useAuth.isSuperAdmin h)
  then Navigate "/admin" true
  else Children children.

End Guards.
End App.

(** The guards of the copy of App.tsx that waits on [loading]. *)
Module AppLoading.
Section Guards.
Context {ReactNode : Type}.

Definition ProtectedRoute (children : ReactNode) (h : useAuth.state)
  : rendered ReactNode :=
  if useAuth.loading h then Placeholder
  else if negb (useAuth.isAdmin h) && negb (useAuth.isEditor h)
  then Navigate "/admin/login" true
  else Children children.

Definition AdminOnlyRoute (children : ReactNode) (h : useAuth.state)
  : rendered ReactNode :=
  if useAuth.loading h then Placeholder
  else if negb (useAuth.isAdmin h) && negb (useAuth.isSuperAdmin h)
  then Navigate "/admin" true
  else Children children.

Definition SuperAdminOnlyRoute (children : ReactNode) (h : useAuth.state)
  : rendered ReactNode :=
  if useAuth.loading h then Placeholder
  else if negb (useAuth.isSuperAdmin h)
  then Navigate "/admin" true
  else Children children.

End Guards.
End AppLoading.

(** ** The route table (App.tsx) *)

(** The wrappers a route element sits in. *)
Inductive guard : Type := Protected | AdminOnly | SuperAdminOnly.

(** The routes under /admin, each with its wrappers from the outside in:
    the whole subtree is wrapped in [ProtectedRoute], and team, audit and
    system carry a wrapper of their own.  The paths are the joined paths
    of parent and child route. *)
Definition admin_routes : list (string * list guard) :=
  [ ("/admin", [Protected]);
    ("/admin/hero", [Protected]);
    ("/admin/about", [Protected]);
    ("/admin/projects", [Protected]);
    ("/admin/messages", [Protected]);
    ("/admin/media", [Protected]);
    ("/admin/team", [Protected; AdminOnly]);
    ("/admin/audit", [Protected; AdminOnly]);
    ("/admin/settings", [Protected]);
    ("/admin/system", [Protected; SuperAdminOnly]) ].

(** Whether a wrapper lets its children through. *)
Definition lets_through (g : guard) (h : useAuth.state) : bool :=
  match
    match g with
    | Protected => App.ProtectedRoute tt h
    | AdminOnly => App.AdminOnlyRoute tt h
    | SuperAdminOnly => App.SuperAdminOnlyRoute tt h
    end
  with
  | Children _ => true
  | _ => false
  end.

(** Whether the element of the route at [path] gets rendered. *)
Definition reaches (path : string) (h : useAuth.state) : bool :=
  match list_find (fun r => r.1 = path) admin_routes with
  | Some (_, (_, guards)) => forallb (fun g => lets_through g h) guards
  | None => false
  end.

(** ** AdminLayout (components/admin/AdminLayout.tsx) *)

Module AdminLayout.

Record item : Type := mkItem { name : string; href : string; icon : string }.

(** What the component returns: the loader, [null] after
    [navigate(to)], or the layout with its navigation entries. *)
Inductive output : Type :=
| Loader
| Redirect (to : string)
| Layout (navigation : list item).

(** [const navigation = [...]] *)
Definition navigation (h : useAuth.state) : list item :=
  ([ mkItem "Dashboard" "/admin" "LayoutDashboard";
     mkItem "Hero Section" "/admin/hero" "Home";
     mkItem "À propos" "/admin/about" "Info";
     mkItem "Projets" "/admin/projects" "FolderOpen";
     mkItem "Messages" "/admin/messages" "MessageSquare";
     mkItem "Médias" "/admin/media" "Image" ]
   ++ (if useAuth.isAdmin h
       then [ mkItem "Équipe" "/admin/team" "Users";
              mkItem "Logs d'Audit" "/admin/audit" "History" ]
       else [])
   ++ [ mkItem "Paramètres" "/admin/settings" "Settings" ]
   ++ (if useAuth.isSuperAdmin h
       then [ mkItem "Système" "/admin/system" "Shield" ]
       else []))%list.

Definition render (h : useAuth.state) : output :=
  if useAuth.initializing h then Loader
  else if negb (useAuth.loading h) && negb (useAuth.initializing h)
          && (negb (bool_decide (is_Some (useAuth.profile h)))
              || (negb (useAuth.isAdmin h) && negb (useAuth.isEditor h)))
  then Redirect "/admin/login"
  else Layout (navigation h).

End AdminLayout.

(** ** AdminLogin (components/admin/AdminLogin.tsx) *)

Module AdminLogin.

(** What the page shows: the bare placeholder or the login form. *)
Inductive output : Type := Blank | Form.

(** The effect that sends a signed-in staff member on: the path it
    navigates to, if it fires. *)
Definition redirect (h : useAuth.state) : option string :=
  if negb (useAuth.loading h) && negb (useAuth.initializing h)
     && bool_decide (is_Some (useAuth.profile h))
     && (useAuth.isAdmin h || useAuth.isEditor h || useAuth.isSuperAdmin h)
  then Some "/admin"
  else None.

Definition render (h : useAuth.state) : output :=
  if useAuth.initializing h then Blank
  else if negb (useAuth.initializing h)
          && bool_decide (is_Some (useAuth.profile h))
          && (useAuth.isAdmin h || useAuth.isEditor h
              || useAuth.isSuperAdmin h)
  then Blank
  else Form.

End AdminLogin.

(** ** Vocabulary of the statements *)

#[global] Instance valid_role_dec r : Decision (UserProfile.valid_role r).
Proof. unfold UserProfile.valid_role. apply _. Defined.

#[global] Instance valid_status_dec s : Decision (UserProfile.valid_status s).
Proof. unfold UserProfile.valid_status. apply _. Defined.

Definition sample_profile (r s : string) : UserProfile.t :=
  UserProfile.mk "u1" None None None r s true None 0 None
    (Js.JObject []) (Js.JObject []) "2025-07-11" "2025-07-11".

Definition cached (p : UserProfile.t) : AuthService.t :=
  AuthService.mk None (Some p) None true.

(** The level [roleHierarchy[r] || 0] that [hasRole] computes. *)
Definition level (r : string) : Js.value :=
  Js.or (Js.get AuthService.roleHierarchy r) (Js.number 0).

(** What the profile loaders leave alone: [profile_frame w w'] says that
    the identity, the settings and the [initialized] mark of [w'] are
    those of [w]. *)
Definition profile_frame (w w' : AuthService.world) : Prop :=
  AuthService.currentUser (AuthService.this w')
    = AuthService.currentUser (AuthService.this w)
  /\ AuthService.settings (AuthService.this w')
    = AuthService.settings (AuthService.this w)
  /\ AuthService.initialized (AuthService.this w')
    = AuthService.initialized (AuthService.this w).

(** The three flags of a hook state. *)
Definition flags (h : useAuth.state) : bool * bool * bool :=
  (useAuth.isSuperAdmin h, useAuth.isAdmin h, useAuth.isEditor h).

(** The flags as the specification derives them from (role, status). *)
Definition derived (p : option UserProfile.t) : bool * bool * bool :=
  match p with
  | Some p =>
      if bool_decide (UserProfile.status p = "active") then
        (bool_decide (UserProfile.role p = "super_admin"),
         bool_decide (UserProfile.role p = "super_admin"
                      \/ UserProfile.role p = "admin"),
         bool_decide (UserProfile.role p = "super_admin"
                      \/ UserProfile.role p = "admin"
                      \/ UserProfile.role p = "editor"))
      else (false, false, false)
  | None => (false, false, false)
  end.

(** What holds of the state cells between two handlers: the flags are the
    ones derived from the displayed profile, and [loading] and
    [initializing] agree. *)
Definition coherent (h : useAuth.state) : Prop :=
  flags h = derived (useAuth.profile h)
  /\ useAuth.loading h = useAuth.initializing h.

(** The public methods of the singleton, as requests. *)
Inductive request : Type :=
| Initialize
| SignIn (email password : string) (rememberMe : bool)
| SignUp (email password : string) (fullName : option string)
| SignOut
| CreateUser (email password fullName role : string)
| IsSignupEnabled.

(** The world after a request has completed. *)
Definition perform (supabase : Backend) (q : request)
  (w : AuthService.world) : AuthService.world :=
  match q with
  | Initialize => (AuthService.initialize supabase w).2
  | SignIn e p r => (AuthService.signIn supabase e p r w).2
  | SignUp e p f => (AuthService.signUp supabase e p f w).2
  | SignOut => (AuthService.signOut supabase w).2
  | CreateUser e p f r => (AuthService.createUser supabase e p f r w).2
  | IsSignupEnabled => (AuthService.isSignupEnabled supabase w).2
  end.

(** What can happen to a mounted component: its effect runs, the auth
    listener fires, one of the functions it hands out is called, it
    unmounts, or the shared singleton is used from elsewhere. *)
Inductive action : Type :=
| Mount
| AuthStateChange (event : string) (session : option Session.t)
| CallSignIn (email password : string) (rememberMe : bool)
| CallSignOut
| CallSignUp (email password : string) (fullName : option string)
| CallCreateUser (email password fullName role : string)
| Unmount
| Elsewhere (q : request).

Definition handle (supabase : Backend) (a : action) (c : useAuth.component)
  : useAuth.component :=
  match a with
  | Mount => (useAuth.initialize supabase c).2
  | AuthStateChange ev sess => (useAuth.onAuthStateChange supabase ev sess c).2
  | CallSignIn e p r => (useAuth.signIn supabase e p r c).2
  | CallSignOut => (useAuth.signOut supabase c).2
  | CallSignUp e p f => (useAuth.signUp supabase e p f c).2
  | CallCreateUser e p f r => (useAuth.createUser supabase e p f r c).2
  | Unmount => (useAuth.cleanup c).2
  | Elsewhere q =>
      useAuth.mkComponent (perform supabase q (useAuth.service c))
        (useAuth.view c) (useAuth.mounted c)
  end.

(** A component as it is when the hook is first called, on whatever the
    singleton holds at that time. *)
Definition mount (w : AuthService.world) : useAuth.component :=
  useAuth.mkComponent w useAuth.initial true.

(** The component states a sequence of actions leads to. *)
Definition after (supabase : Backend) (actions : list action)
  (c : useAuth.component) : useAuth.component :=
  foldl (fun c a => handle supabase a c) c actions.

(** The state cells of a component mounted on [w] after [actions]. *)
Definition reached (supabase : Backend) (actions : list action)
  (w : AuthService.world) : useAuth.state :=
  useAuth.view (after supabase actions (mount w)).

(** The error a sign-in attempt is answered with, if any: the [error]
    of the resolved answer, or the rejection itself. *)
Definition signIn_failure (supabase : Backend) (w : AuthService.world)
  (email password : string) : option Js.error :=
  match signInWithPassword supabase
          (AuthService.calls w ++ [auth_signInWithPassword email password])%list
  with
  | Resolved (_, error) => error
  | Rejected e => Some e
  end.

(** What is cached about the signed-in person: identity and profile in
    the singleton; identity, profile, session and flags in the component. *)
Definition cache (c : useAuth.component) :=
  (AuthService.currentUser (AuthService.this (useAuth.service c)),
   AuthService.currentProfile (AuthService.this (useAuth.service c)),
   useAuth.authUser (useAuth.view c),
   useAuth.profile (useAuth.view c),
   useAuth.session (useAuth.view c),
   flags (useAuth.view c)).

(** The cache of a component freshly mounted on a new singleton. *)
Definition empty_cache :=
  cache (mount (AuthService.mkWorld AuthService.new [])).

(** *** Backends to run the model on *)

Definition network_error : Js.error := Js.Error "Failed to fetch" None.

Definition invalid_credentials : Js.error :=
  Js.Error "Invalid login credentials" (Some "invalid_credentials").

(** A backend that cannot be reached: every request is rejected. *)
Definition offline : Backend :=
  mkBackend
    (fun _ => Rejected network_error) (fun _ => Rejected network_error)
    (fun _ => Rejected network_error) (fun _ => Rejected network_error)
    (fun _ => Rejected network_error) (fun _ => Rejected network_error)
    (fun _ => Rejected network_error) (fun _ => Rejected network_error)
    (fun _ => Rejected network_error) (fun _ => Rejected network_error)
    (fun _ => Rejected network_error) (fun _ => Rejected network_error)
    (fun _ => None) "agent" (fun _ => "2025-07-11T01:20:02.000Z").

Definition alice : User.t := User.mk "u1" (Some "alice@example.org").

(** A backend with no open session that refuses every password, lets
    the caller sign out, and serves an active admin profile. *)
Definition refusing : Backend :=
  mkBackend
    (fun _ => Resolved (None, None))
    (fun _ => Resolved (None, None))
    (fun _ => Resolved (mkAuthData None None, Some invalid_credentials))
    (fun _ => Resolved (None, None))
    (fun _ => Resolved None)
    (fun _ => Resolved (Some alice, None))
    (fun _ => Resolved (Some (sample_profile "admin" "active"), None))
    (fun _ => Resolved (Some (sample_profile "user" "active"), None))
    (fun _ => Resolved None)
    (fun _ => Resolved None)
    (fun _ => Resolved
       (Some [mkSettingRow "global_signup_enabled" (Js.JString "false");
              mkSettingRow "password_min_length" (Js.JNumber "12")], None))
    (fun _ => Resolved None)
    (fun v => match v with Js.JNumber n => Some n | _ => None end)
    "agent" (fun _ => "2025-07-11T01:20:02.000Z").

(** A backend with an open session for [alice], whose profile row is
    missing and gets created. *)
Definition provisioning : Backend :=
  mkBackend
    (fun _ => Resolved (Some (Session.mk alice "token"), None))
    (fun _ => Resolved (Some alice, None))
    (fun _ => Resolved (mkAuthData (Some alice)
                          (Some (Session.mk alice "token")), None))
    (fun _ => Resolved (Some alice, None))
    (fun _ => Resolved (Some network_error))
    (fun _ => Resolved (Some alice, None))
    (fun _ => Resolved (None, Some (Js.Error "no rows" (Some "PGRST116"))))
    (fun _ => Resolved (Some (sample_profile "user" "active"), None))
    (fun _ => Resolved None)
    (fun _ => Resolved None)
    (fun _ => Resolved (None, Some network_error))
    (fun _ => Rejected network_error)
    (fun _ => None) "agent" (fun _ => "2025-07-11T01:20:02.000Z").

(** A backend like [provisioning] on which the missing profile row
    cannot be created, and whose profile upsert answers with an error. *)
Definition read_only : Backend :=
  mkBackend
    (getSession provisioning) (getUser provisioning)
    (signInWithPassword provisioning) (signUp_response provisioning)
    (signOut_response provisioning) (admin_createUser provisioning)
    (select_profile provisioning)
    (fun _ => Resolved (None, Some network_error))
    (fun _ => Resolved (Some network_error))
    (update_profile provisioning) (select_settings provisioning)
    (insert_login_attempt provisioning)
    (Number provisioning) (userAgent provisioning)
    (toISOString provisioning).

(** A backend with an open session for [alice], an active admin. *)
Definition staffed : Backend :=
  mkBackend
    (getSession provisioning) (getUser provisioning)
    (signInWithPassword provisioning) (signUp_response provisioning)
    (signOut_response provisioning) (admin_createUser provisioning)
    (fun _ => Resolved (Some (sample_profile "admin" "active"), None))
    (insert_profile provisioning) (upsert_profile provisioning)
    (update_profile provisioning) (select_settings provisioning)
    (insert_login_attempt provisioning)
    (Number provisioning) (userAgent provisioning)
    (toISOString provisioning).

(** A backend whose session request reports a missing refresh token. *)
Definition stale_token : Backend :=
  mkBackend
    (fun _ => Resolved
       (None, Some (Js.Error "AuthApiError: refresh_token_not_found" None)))
    (getUser refusing)
    (signInWithPassword refusing) (signUp_response refusing)
    (signOut_response refusing) (admin_createUser refusing)
    (select_profile refusing) (insert_profile refusing)
    (upsert_profile refusing) (update_profile refusing)
    (select_settings refusing) (insert_login_attempt refusing)
    (Number refusing) (userAgent refusing) (toISOString refusing).

(** A new singleton that has sent nothing yet. *)
Definition fresh : AuthService.world :=
  AuthService.mkWorld AuthService.new [].

(** A singleton caching an active admin. *)
Definition admin_world : AuthService.world :=
  AuthService.mkWorld
    (AuthService.mk (Some alice) (Some (sample_profile "admin" "active"))
       None true) [].


(** A component showing a signed-in editor. *)
Definition editor_signed_in : useAuth.component :=
  useAuth.mkComponent
    (AuthService.mkWorld
       (AuthService.mk (Some alice) (Some (sample_profile "editor" "active"))
          None true) [])
    (useAuth.mk (Some alice) (Some (sample_profile "editor" "active"))
       (Some (Session.mk alice "token")) false false false true false)
    true.

(** [SystemSettings] as [setDefaultSettings] fills it. *)
Definition default_settings : SystemSettings.t :=
  SystemSettings.mk (SBool true) (SBool false) (SNumber "8") (SNumber "5")
    (SNumber "24").

(** The settings request fails: it is rejected, or answered with an error. *)
Definition settings_unavailable (supabase : Backend)
  (w : AuthService.world) : bool :=
  match select_settings supabase
          (AuthService.calls w ++ [system_settings_select])%list
  with
  | Resolved (_, None) => false
  | _ => true
  end.

(** The value of the last row with key [k], if there is one. *)
Fixpoint last_value (k : string) (rows : list SettingRow) : option Js.json :=
  match rows with
  | [] => None
  | row :: rest =>
      match last_value k rest with
      | Some v => Some v
      | None =>
          if bool_decide (setting_key row = k) then Some (setting_value row)
          else None
      end
  end.

(** The sign-out request fails: it is rejected, or answered with an error. *)
Definition signOut_failure (supabase : Backend) (w : AuthService.world)
  : option Js.error :=
  match signOut_response supabase (AuthService.calls w ++ [auth_signOut])%list
  with
  | Resolved error => error
  | Rejected e => Some e
  end.

(** The singleton with another cached profile. *)
Definition with_profile (p : option UserProfile.t) (s : AuthService.t)
  : AuthService.t :=
  AuthService.mk (AuthService.currentUser s) p (AuthService.settings s)
    (AuthService.initialized s).

(** The row [createMissingProfile] asks to insert for [userId]. *)
Definition default_profile_data (userId : string) : ProfileData :=
  mkProfileData userId "user" "active" true 0 (Js.JObject []) (Js.JObject []).

(** The errors on which the mount effect signs out. *)
Definition is_refresh_token_error (e : Js.error) : bool :=
  includes (Js.message e) "refresh_token_not_found"
  || includes (Js.message e) "Refresh Token Not Found".

(** The state cells after [setSession(session)],
    [setAuthUser(session?.user ?? null)], [setProfile(p)],
    [updateRoles(p)], [setLoading(false)], [setInitializing(false)]. *)
Definition shown (session : option Session.t) (p : option UserProfile.t)
  (h : useAuth.state) : useAuth.state :=
  useAuth.setInitializing false (useAuth.setLoading false
    (useAuth.updateRoles p (useAuth.setProfile p
       (useAuth.setAuthUser (Session.user <$> session)
          (useAuth.setSession session h))))).

(** * Properties *)

(** Closed decidable facts, by evaluation. *)
Ltac decide_closed := first [ reflexivity | compute_done ].

(** ** The role table *)

Lemma level_super_admin : level "super_admin" = Js.number 4.
Proof. reflexivity. Qed.
Lemma level_admin : level "admin" = Js.number 3.
Proof. reflexivity. Qed.
Lemma level_editor : level "editor" = Js.number 2.
Proof. reflexivity. Qed.
Lemma level_user : level "user" = Js.number 1.
Proof. reflexivity. Qed.

(** Against a number [>=] is numeric, whatever the other side is. *)
Lemma ge_number_r (a : Js.value) (n : Z) :
  Js.ge a (Js.number n)
  = match Js.to_number a with Some x => x >=? n | None => false end.
Proof. by destruct a. Qed.

Lemma ge_number_l (n : Z) (b : Js.value) :
  Js.ge (Js.number n) b
  = match Js.to_number b with Some y => n >=? y | None => false end.
Proof. by destruct b. Qed.

Lemma level_of_role (R : Role.t) :
  level (Role.name R) = Js.number (Z.of_nat (Role.rank R) + 1).
Proof. by destruct R. Qed.

Lemma level_unlisted (r : string) :
  r ∉ ["super_admin"; "admin"; "editor"; "user"] ->
  level r = if bool_decide (r ∈ Js.Object_prototype_keys)
            then Js.inherited r else Js.number 0.
Proof.
  intros Hr. unfold level, Js.get, AuthService.roleHierarchy.
  rewrite !lookup_insert_ne
    by (intros <-; apply Hr; rewrite !elem_of_cons; tauto).
  rewrite lookup_empty. by case_bool_decide.
Qed.

(** Every string is one of the four table keys or misses the table. *)
Lemma role_cases (r : string) :
  r = "super_admin" ∨ r = "admin" ∨ r = "editor" ∨ r = "user"
  ∨ r ∉ ["super_admin"; "admin"; "editor"; "user"].
Proof.
  destruct (decide (r ∈ ["super_admin"; "admin"; "editor"; "user"]))
    as [Hin | Hout]; [| by repeat right].
  rewrite !elem_of_cons, elem_of_nil in Hin. tauto.
Qed.

(** The numeric value of a level: [None] (NaN) exactly for the names
    inherited from [Object.prototype]. *)
Lemma level_to_number (r : string) :
  Js.to_number (level r) =
    if bool_decide (r = "super_admin") then Some 4
    else if bool_decide (r = "admin") then Some 3
    else if bool_decide (r = "editor") then Some 2
    else if bool_decide (r = "user") then Some 1
    else if bool_decide (r ∈ Js.Object_prototype_keys) then None
    else Some 0.
Proof.
  destruct (role_cases r) as [-> | [-> | [-> | [-> | Hr]]]];
    try reflexivity.
  rewrite level_unlisted by done.
  repeat (rewrite (bool_decide_eq_false_2 (r = _))
            by (intros ->; apply Hr; rewrite !elem_of_cons; tauto)).
  by case_bool_decide.
Qed.

(** [hasRole] on a cached active profile is the comparison of the levels. *)
Lemma hasRole_active (s : AuthService.t) (p : UserProfile.t) (r : string) :
  AuthService.currentProfile s = Some p ->
  UserProfile.status p = "active" ->
  AuthService.hasRole s r = Js.ge (level (UserProfile.role p)) (level r).
Proof.
  intros Hp Hs. unfold AuthService.hasRole. rewrite Hp.
  by rewrite bool_decide_eq_false_2 by (by intros []).
Qed.

Lemma hasRole_inactive (s : AuthService.t) (p : UserProfile.t) (r : string) :
  AuthService.currentProfile s = Some p ->
  UserProfile.status p ≠ "active" ->
  AuthService.hasRole s r = false.
Proof.
  intros Hp Hs. unfold AuthService.hasRole. rewrite Hp.
  by rewrite bool_decide_eq_true_2.
Qed.

Lemma hasRole_no_profile (s : AuthService.t) (r : string) :
  AuthService.currentProfile s = None -> AuthService.hasRole s r = false.
Proof. intros Hp. unfold AuthService.hasRole. by rewrite Hp. Qed.

(** When [hasRole('admin')] holds, in terms of the cached profile. *)
Lemma hasRole_admin_spec (s : AuthService.t) :
  AuthService.hasRole s "admin" = true <->
  exists p, AuthService.currentProfile s = Some p
    /\ (UserProfile.role p = "admin" \/ UserProfile.role p = "super_admin")
    /\ UserProfile.status p = "active".
Proof.
  split.
  - destruct (AuthService.currentProfile s) as [p |] eqn:Hp;
      [| by rewrite hasRole_no_profile].
    destruct (decide (UserProfile.status p = "active")) as [Hs | Hs];
      [| by rewrite (hasRole_inactive s p)].
    rewrite (hasRole_active s p) by done.
    rewrite level_admin, ge_number_r, level_to_number.
    intros H. exists p. repeat split; [| done].
    repeat case_bool_decide; auto; try discriminate.
  - intros (p & Hp & Hr & Hs). rewrite (hasRole_active s p) by done.
    by destruct Hr as [-> | ->].
Qed.

(** ** hasRole *)

(** Claim C1.  For every cached profile, [hasRole('admin')] is true if and
    only if the profile's role is 'admin' or 'super_admin' and its status
    is 'active'; with no cached profile it is false. *)
Theorem hasRole_admin_iff (s : AuthService.t) :
  match AuthService.currentProfile s with
  | Some p =>
      AuthService.hasRole s "admin" = true <->
      (UserProfile.role p = "admin" \/ UserProfile.role p = "super_admin")
      /\ UserProfile.status p = "active"
  | None => AuthService.hasRole s "admin" = false
  end.
Proof.
  destruct (AuthService.currentProfile s) as [p |] eqn:Hp;
    [| by apply hasRole_no_profile].
  rewrite hasRole_admin_spec, Hp. split.
  - intros (q & [= <-] & H). exact H.
  - intros H. by exists p.
Qed.

(** Claim C3.  [hasRole] is monotone along user < editor < admin <
    super_admin: whatever is cached, if [hasRole(R)] holds then so does
    [hasRole(R')] for every role [R'] ranked at or below [R]. *)
Theorem hasRole_monotone (s : AuthService.t) (R R' : Role.t) :
  (Role.rank R' <= Role.rank R)%nat ->
  AuthService.hasRole s (Role.name R) = true ->
  AuthService.hasRole s (Role.name R') = true.
Proof.
  intros Hrank.
  destruct (AuthService.currentProfile s) as [p |] eqn:Hp;
    [| by rewrite hasRole_no_profile].
  destruct (decide (UserProfile.status p = "active")) as [Hs | Hs];
    [| by rewrite (hasRole_inactive s p)].
  rewrite !(hasRole_active s p) by done.
  rewrite !level_of_role, !ge_number_r.
  destruct (Js.to_number (level (UserProfile.role p))) as [x |]; [| done].
  rewrite !Z.geb_leb, !Z.leb_le. lia.
Qed.

Lemma hasRole_monotone_witness :
  (Role.rank Role.editor <= Role.rank Role.admin)%nat
  /\ AuthService.hasRole (cached (sample_profile "admin" "active"))
       (Role.name Role.admin) = true
  /\ AuthService.hasRole (cached (sample_profile "admin" "active"))
       (Role.name Role.editor) = true.
Proof.
  assert (H1 : (Role.rank Role.editor <= Role.rank Role.admin)%nat)
    by (simpl; lia).
  assert (H2 : AuthService.hasRole (cached (sample_profile "admin" "active"))
                 (Role.name Role.admin) = true) by reflexivity.
  exact (conj H1 (conj H2 (hasRole_monotone _ _ _ H1 H2))).
Defined.

(** Claim C10.  The code misses the claim at 'constructor': it is none
    of the four role names, yet an active admin does not have it.
    [roleHierarchy] is an object literal, so [roleHierarchy[role]] finds
    the inherited [Object.prototype.constructor]; it is truthy, so the
    [|| 0] meant for unknown names does not apply, and the number 3
    against a function compares as NaN. *)
Theorem hasRole_constructor_is_false :
  ("constructor" ∉ ["super_admin"; "admin"; "editor"; "user"])
  /\ UserProfile.status (sample_profile "admin" "active") = "active"
  /\ UserProfile.valid_role
       (UserProfile.role (sample_profile "admin" "active"))
  /\ AuthService.hasRole (cached (sample_profile "admin" "active"))
       "constructor" = false.
Proof.
  split; [decide_closed |].
  split; [decide_closed |].
  split; decide_closed.
Qed.

(** Where the [|| 0] default does apply: a requested name that is
    neither one of the four roles nor inherited from [Object.prototype]
    falls to level 0, below every valid level, so an active profile with
    one of the four roles has it. *)
Lemma hasRole_unlisted_default (s : AuthService.t) (p : UserProfile.t)
  (r : string) :
  r ∉ ["super_admin"; "admin"; "editor"; "user"] ->
  r ∉ Js.Object_prototype_keys ->
  AuthService.currentProfile s = Some p ->
  UserProfile.status p = "active" ->
  UserProfile.valid_role (UserProfile.role p) ->
  AuthService.hasRole s r = true.
Proof.
  intros Hr Hk Hp Hs Hv. rewrite (hasRole_active s p) by done.
  rewrite (level_unlisted r) by done.
  rewrite (bool_decide_eq_false_2 _ Hk).
  unfold UserProfile.valid_role in Hv.
  rewrite !elem_of_cons, elem_of_nil in Hv.
  by destruct Hv as [-> | [-> | [-> | [-> | []]]]].
Qed.

(** ** The service methods never throw *)

(** Unfold one layer of the monad. *)
Ltac unfold_monad :=
  unfold mbind, mret, M_bind, M_ret, bind, ret, try_catch, throw, get,
    modify, lift, AuthService.await,
    AuthService.set_currentUser, AuthService.set_currentProfile,
    AuthService.set_settings, AuthService.set_initialized in *.

(** Run a method body symbolically, splitting on each backend answer. *)
Ltac run_method :=
  unfold_monad; simpl;
  repeat (case_match; simplify_eq/=; try done).

Section ServiceFacts.
Variable supabase : Backend.

Lemma createMissingProfile_returns (userId : string) (w : AuthService.world) :
  exists w', AuthService.createMissingProfile supabase userId w
             = (Normal tt, w')
    /\ profile_frame w w'.
Proof.
  unfold AuthService.createMissingProfile, profile_frame.
  run_method; eauto.
Qed.

Lemma loadUserProfile_returns (userId : string) (w : AuthService.world) :
  exists w', AuthService.loadUserProfile supabase userId w = (Normal tt, w')
    /\ profile_frame w w'.
Proof.
  unfold AuthService.loadUserProfile.
  unfold_monad; simpl.
  destruct (select_profile supabase _) as [[profile [e |]] | e]; simpl;
    try (eexists; split; [reflexivity | by unfold profile_frame]).
  case_bool_decide;
    [| eexists; split; [reflexivity | by unfold profile_frame]].
  match goal with
  | |- context [AuthService.createMissingProfile _ _ ?w0] =>
      destruct (createMissingProfile_returns userId w0) as (w' & -> & Hf)
  end.
  by exists w'.
Qed.

Lemma loadSystemSettings_returns (w : AuthService.world) :
  exists w' x, AuthService.loadSystemSettings supabase w = (Normal tt, w')
    /\ AuthService.this w'
       = AuthService.mk (AuthService.currentUser (AuthService.this w))
           (AuthService.currentProfile (AuthService.this w)) (Some x)
           (AuthService.initialized (AuthService.this w)).
Proof.
  unfold AuthService.loadSystemSettings, AuthService.setDefaultSettings.
  run_method; eauto.
Qed.

Lemma logLoginAttempt_returns (email : string) (success : bool)
  (errorType : option string) (w : AuthService.world) :
  exists w', AuthService.logLoginAttempt supabase email success errorType w
             = (Normal tt, w')
    /\ AuthService.this w' = AuthService.this w.
Proof. unfold AuthService.logLoginAttempt. run_method; eauto. Qed.

Lemma updateLastLogin_returns (userId : string) (w : AuthService.world) :
  exists w', AuthService.updateLastLogin supabase userId w = (Normal tt, w')
    /\ AuthService.this w' = AuthService.this w.
Proof. unfold AuthService.updateLastLogin. run_method; eauto. Qed.

(** Replace a helper call in the goal by its normal completion. *)
Ltac step_helper :=
  match goal with
  | |- context [AuthService.loadUserProfile ?B ?u ?w0] =>
      let w' := fresh "w" in let Hf := fresh "Hframe" in
      destruct (loadUserProfile_returns u w0) as (w' & -> & Hf)
  | |- context [AuthService.loadSystemSettings ?B ?w0] =>
      let w' := fresh "w" in let x := fresh "x" in
      let Hf := fresh "Hthis" in
      destruct (loadSystemSettings_returns w0) as (w' & x & -> & Hf)
  | |- context [AuthService.updateLastLogin ?B ?u ?w0] =>
      let w' := fresh "w" in let Hf := fresh "Hthis" in
      destruct (updateLastLogin_returns u w0) as (w' & -> & Hf)
  | |- context [AuthService.logLoginAttempt ?B ?e ?b ?t ?w0] =>
      let w' := fresh "w" in let Hf := fresh "Hthis" in
      destruct (logLoginAttempt_returns e b t w0) as (w' & -> & Hf)
  end; simpl.

(** *** initialize *)

Lemma initialize_noop (w : AuthService.world) :
  AuthService.initialized (AuthService.this w) = true ->
  AuthService.initialize supabase w = (Normal tt, w).
Proof.
  intros Hi. unfold AuthService.initialize. unfold_monad. simpl.
  by rewrite Hi.
Qed.

Lemma initialize_returns (w : AuthService.world) :
  exists w', AuthService.initialize supabase w = (Normal tt, w')
    /\ AuthService.initialized (AuthService.this w') = true.
Proof.
  destruct (AuthService.initialized (AuthService.this w)) eqn:Hi.
  { exists w. by rewrite initialize_noop. }
  unfold AuthService.initialize. unfold_monad. simpl. rewrite Hi.
  destruct (getSession supabase _) as [[[sess |] error] | e]; simpl;
    repeat step_helper; eauto.
Qed.



(** *** signIn *)

Lemma signIn_returns (email password : string) (rememberMe : bool)
  (w : AuthService.world) :
  exists r w', AuthService.signIn supabase email password rememberMe w
               = (Normal r, w')
    /\ AuthService.initialized (AuthService.this w')
       = AuthService.initialized (AuthService.this w).
Proof.
  unfold AuthService.signIn. unfold_monad. simpl.
  destruct (signInWithPassword supabase _) as [[[[u |] sess] [e |]] | e];
    simpl; repeat step_helper; eexists _, _; (split; [reflexivity |]);
    simpl; try done.
  - by rewrite Hthis.
  - destruct Hframe as (_ & _ & Hi). by rewrite Hthis0, Hthis.
  - by rewrite Hthis.
Qed.

(** The provider answers with an error: the error is handed back, and
    the singleton is as before. *)
Lemma signIn_error (email password : string) (rememberMe : bool)
  (w : AuthService.world) (data : AuthData) (e : Js.error) :
  signInWithPassword supabase
    (AuthService.calls w ++ [auth_signInWithPassword email password])%list
    = Resolved (data, Some e) ->
  exists w', AuthService.signIn supabase email password rememberMe w
             = (Normal (SignInResult.mk None None (Some e)), w')
    /\ AuthService.this w' = AuthService.this w.
Proof.
  intros He. unfold AuthService.signIn. unfold_monad. simpl.
  rewrite He. simpl. step_helper. eauto.
Qed.

(** The request itself is rejected: the catch block hands the error back. *)
Lemma signIn_rejected (email password : string) (rememberMe : bool)
  (w : AuthService.world) (e : Js.error) :
  signInWithPassword supabase
    (AuthService.calls w ++ [auth_signInWithPassword email password])%list
    = Rejected e ->
  AuthService.signIn supabase email password rememberMe w
  = (Normal (SignInResult.mk None None (Some e)),
     AuthService.mkWorld (AuthService.this w)
       (AuthService.calls w ++ [auth_signInWithPassword email password])%list).
Proof.
  intros He. unfold AuthService.signIn. unfold_monad. simpl.
  by rewrite He.
Qed.

(** *** signOut *)

Lemma signOut_returns (w : AuthService.world) :
  exists r w', AuthService.signOut supabase w = (Normal r, w')
    /\ AuthService.settings (AuthService.this w')
       = AuthService.settings (AuthService.this w)
    /\ AuthService.initialized (AuthService.this w')
       = AuthService.initialized (AuthService.this w)
    /\ match SignOutResult.error r with
       | None =>
           AuthService.currentUser (AuthService.this w') = None
           /\ AuthService.currentProfile (AuthService.this w') = None
       | Some _ => AuthService.this w' = AuthService.this w
       end.
Proof.
  unfold AuthService.signOut. unfold_monad. simpl.
  destruct (signOut_response supabase _) as [[e |] | e]; simpl;
    eexists _, _; (split; [reflexivity |]); simpl; auto.
Qed.

(** *** signUp *)


(** *** createUser *)

Lemma createUser_returns (email password fullName role : string)
  (w : AuthService.world) :
  exists r w', AuthService.createUser supabase email password fullName role w
               = (Normal r, w')
    /\ AuthService.this w' = AuthService.this w.
Proof.
  unfold AuthService.createUser. unfold_monad. simpl.
  destruct (AuthService.hasRole _ _); simpl; [| eauto].
  destruct (admin_createUser supabase _) as [[[u |] [e |]] | e]; simpl;
    eauto.
  destruct (upsert_profile supabase _); simpl; eauto.
Qed.

(** Without the admin role nothing is sent and nothing changes. *)
Lemma createUser_denied (email password fullName role : string)
  (w : AuthService.world) :
  AuthService.hasRole (AuthService.this w) "admin" = false ->
  AuthService.createUser supabase email password fullName role w
  = (Normal (UserResult.mk None
               (Some (Js.Error "Permissions insuffisantes" None))), w).
Proof.
  intros H. unfold AuthService.createUser. unfold_monad. simpl.
  by rewrite H.
Qed.

(** *** isSignupEnabled *)


End ServiceFacts.

(** ** The hook *)

Lemma updateRoles_flags (p : option UserProfile.t) (h : useAuth.state) :
  flags (useAuth.updateRoles p h) = derived p.
Proof.
  unfold useAuth.updateRoles, derived, flags.
  destruct p as [p |]; [| done].
  destruct (decide (UserProfile.status p = "active")) as [Hs | Hs].
  - rewrite bool_decide_eq_false_2 by (by intros []).
    rewrite (bool_decide_eq_true_2 _ Hs). simpl.
    f_equal; [f_equal |]; apply bool_decide_ext;
      rewrite !elem_of_cons, elem_of_nil; tauto.
  - rewrite (bool_decide_eq_true_2 _ Hs).
    by rewrite (bool_decide_eq_false_2 _ Hs).
Qed.

Lemma updateRoles_other (p : option UserProfile.t) (h : useAuth.state) :
  useAuth.authUser (useAuth.updateRoles p h) = useAuth.authUser h
  /\ useAuth.profile (useAuth.updateRoles p h) = useAuth.profile h
  /\ useAuth.session (useAuth.updateRoles p h) = useAuth.session h
  /\ useAuth.loading (useAuth.updateRoles p h) = useAuth.loading h
  /\ useAuth.initializing (useAuth.updateRoles p h)
     = useAuth.initializing h.
Proof.
  unfold useAuth.updateRoles. destruct p as [p |]; [| done].
  by case_bool_decide.
Qed.

Ltac unfold_hook :=
  unfold useAuth.read_profile, useAuth.clear_profile, useAuth.set,
    useAuth.on_service in *;
  unfold_monad; simpl.

(** Normalise the cells of a state built from setters. *)
Ltac cells :=
  unfold coherent, flags in *; simpl;
  repeat match goal with
  | |- context [useAuth.updateRoles ?p ?h] =>
      let Hf := fresh "Hf" in let Ho := fresh "Ho" in
      pose proof (updateRoles_flags p h) as Hf;
      pose proof (updateRoles_other p h) as Ho;
      unfold flags in Hf; simpl in Hf, Ho;
      destruct Ho as (? & ? & ? & ? & ?);
      generalize dependent (useAuth.updateRoles p h); intros
  end.

Ltac hook_inv :=
  unfold_hook;
  repeat (first [ progress simpl | case_match; simplify_eq/= ]);
  cells; split; congruence.

Section HookFacts.
Variable supabase : Backend.

Lemma handle_coherent (a : action) (c : useAuth.component) :
  coherent (useAuth.view c) -> coherent (useAuth.view (handle supabase a c)).
Proof.
  intros [Hf Hl]. destruct a; simpl.
  - unfold useAuth.initialize. hook_inv.
  - unfold useAuth.onAuthStateChange. hook_inv.
  - unfold useAuth.signIn. hook_inv.
  - unfold useAuth.signOut. hook_inv.
  - unfold useAuth.signUp. hook_inv.
  - unfold useAuth.createUser. hook_inv.
  - by split.
  - by split.
Qed.

Lemma initial_coherent : coherent useAuth.initial.
Proof. by split. Qed.

Lemma after_coherent (actions : list action) (c : useAuth.component) :
  coherent (useAuth.view c) ->
  coherent (useAuth.view (after supabase actions c)).
Proof.
  revert c. induction actions as [| a actions IH]; intros c Hc; [done |].
  apply IH. by apply handle_coherent.
Qed.

Lemma on_service_run {A} (m : M AuthService.world A)
  (c : useAuth.component) :
  useAuth.on_service m c
  = ((m (useAuth.service c)).1,
     useAuth.mkComponent (m (useAuth.service c)).2 (useAuth.view c)
       (useAuth.mounted c)).
Proof. unfold useAuth.on_service, lift. by destruct (m _). Qed.

(** The hook's [signIn] hands back what the service's does. *)
Lemma hook_signIn_returns (email password : string) (rememberMe : bool)
  (c : useAuth.component) :
  exists r c', useAuth.signIn supabase email password rememberMe c
               = (Normal r, c')
    /\ (AuthService.signIn supabase email password rememberMe
          (useAuth.service c)) = (Normal r, useAuth.service c')
    /\ (SignInResult.error r <> None -> useAuth.view c' = useAuth.view c).
Proof.
  destruct (signIn_returns supabase email password rememberMe
              (useAuth.service c)) as (r & w' & Hr & _).
  unfold useAuth.signIn. unfold_monad. rewrite on_service_run, Hr. simpl.
  destruct (SignInResult.user r) eqn:Hu, (SignInResult.error r) eqn:He;
    unfold_hook; eexists r, _;
    (split; [reflexivity |]); (split; [reflexivity |]); simpl;
    congruence.
Qed.

Lemma hook_signOut_returns (c : useAuth.component) :
  exists r c', useAuth.signOut supabase c = (Normal r, c')
    /\ AuthService.signOut supabase (useAuth.service c)
       = (Normal r, useAuth.service c')
    /\ match SignOutResult.error r with
       | None =>
           useAuth.view c'
           = useAuth.updateRoles None
               (useAuth.setProfile None
                  (useAuth.setAuthUser None
                     (useAuth.setSession None (useAuth.view c))))
       | Some _ => useAuth.view c' = useAuth.view c
       end.
Proof.
  destruct (signOut_returns supabase (useAuth.service c))
    as (r & w' & Hr & _).
  unfold useAuth.signOut. unfold_monad. rewrite on_service_run, Hr. simpl.
  destruct (SignOutResult.error r) eqn:He; unfold_hook; eexists r, _;
    (split; [reflexivity |]); (split; [reflexivity |]); simpl;
    by rewrite He.
Qed.

Lemma hook_createUser_run (email password fullName role : string)
  (c : useAuth.component) :
  exists r w', AuthService.createUser supabase email password fullName role
                 (useAuth.service c) = (Normal r, w')
    /\ useAuth.createUser supabase email password fullName role c
       = (Normal r,
          useAuth.mkComponent w' (useAuth.view c) (useAuth.mounted c)).
Proof.
  destruct (createUser_returns supabase email password fullName role
              (useAuth.service c)) as (r & w' & Hr & _).
  exists r, w'. split; [done |].
  unfold useAuth.createUser. unfold_monad.
  by rewrite on_service_run, Hr.
Qed.

End HookFacts.

(** ** The [initialized] mark is never taken back *)



(** ** The derived flags *)

(** Claim C2.  For every profile whose status is not 'active', the three
    flags [updateRoles] sets are false whatever they were before, and
    [hasRole] is false for every role, regardless of the profile's role;
    and in every state a component can reach, a displayed inactive
    profile comes with three false flags. *)
Theorem inactive_profile_has_no_role (p : UserProfile.t) :
  UserProfile.status p <> "active" ->
  (forall h, flags (useAuth.updateRoles (Some p) h) = (false, false, false))
  /\ (forall s r, AuthService.currentProfile s = Some p ->
                  AuthService.hasRole s r = false)
  /\ (forall supabase w actions,
        let c := after supabase actions (mount w) in
        useAuth.profile (useAuth.view c) = Some p ->
        flags (useAuth.view c) = (false, false, false)).
Proof.
  intros Hs.
  assert (Hd : derived (Some p) = (false, false, false)).
  { unfold derived. by rewrite (bool_decide_eq_false_2 _ Hs). }
  split; [| split].
  - intros h. by rewrite updateRoles_flags.
  - intros s r Hp. by apply (hasRole_inactive s p).
  - intros supabase w actions c Hp.
    destruct (after_coherent supabase actions (mount w) initial_coherent)
      as [Hf _].
    fold c in Hf. by rewrite Hf, Hp.
Qed.

Lemma inactive_profile_has_no_role_witness :
  UserProfile.status (sample_profile "admin" "suspended") <> "active"
  /\ flags (useAuth.updateRoles (Some (sample_profile "admin" "suspended"))
             (useAuth.view editor_signed_in)) = (false, false, false)
  /\ AuthService.hasRole (cached (sample_profile "admin" "suspended")) "user"
     = false.
Proof.
  assert (H : UserProfile.status (sample_profile "admin" "suspended")
              <> "active") by (simpl; discriminate).
  destruct (inactive_profile_has_no_role _ H) as (Hflags & Hrole & _).
  exact (conj H (conj (Hflags _)
    (Hrole (cached (sample_profile "admin" "suspended")) "user" eq_refl))).
Defined.

(** Claim C4.  The flags are a function of (role, status) alone; for an
    active profile [isSuperAdmin] holds iff the role is 'super_admin',
    [isAdmin] iff it is 'super_admin' or 'admin', [isEditor] iff it is
    'super_admin', 'admin' or 'editor'; an active editor gets
    isEditor = true, isAdmin = false, isSuperAdmin = false. *)
Theorem flags_function_of_role_and_status (p q : UserProfile.t)
  (h k : useAuth.state) :
  (UserProfile.role p = UserProfile.role q ->
   UserProfile.status p = UserProfile.status q ->
   flags (useAuth.updateRoles (Some p) h)
   = flags (useAuth.updateRoles (Some q) k))
  /\ (UserProfile.status p = "active" ->
      let h' := useAuth.updateRoles (Some p) h in
      (useAuth.isSuperAdmin h' = true <-> UserProfile.role p = "super_admin")
      /\ (useAuth.isAdmin h' = true <->
          UserProfile.role p = "super_admin" \/ UserProfile.role p = "admin")
      /\ (useAuth.isEditor h' = true <->
          UserProfile.role p = "super_admin" \/ UserProfile.role p = "admin"
          \/ UserProfile.role p = "editor")
      /\ (UserProfile.role p = "editor" ->
          useAuth.isEditor h' = true /\ useAuth.isAdmin h' = false
          /\ useAuth.isSuperAdmin h' = false)).
Proof.
  split.
  - intros Hr Hs. rewrite !updateRoles_flags. unfold derived.
    by rewrite Hr, Hs.
  - intros Hs h'.
    pose proof (updateRoles_flags (Some p) h) as Hf.
    unfold flags, derived in Hf. fold h' in Hf.
    rewrite (bool_decide_eq_true_2 _ Hs) in Hf.
    injection Hf as -> -> ->.
    rewrite !bool_decide_eq_true. repeat split; try tauto.
    + apply bool_decide_eq_false_2. intros [Hr | Hr]; congruence.
    + apply bool_decide_eq_false_2. congruence.
Qed.

Lemma flags_function_of_role_and_status_witness :
  UserProfile.status (sample_profile "editor" "active") = "active"
  /\ flags (useAuth.updateRoles (Some (sample_profile "editor" "active"))
             useAuth.initial) = (false, false, true).
Proof.
  split; [reflexivity |].
  destruct (flags_function_of_role_and_status
              (sample_profile "editor" "active")
              (sample_profile "editor" "active")
              useAuth.initial useAuth.initial) as [_ H].
  destruct (H eq_refl) as (_ & _ & _ & He).
  destruct (He eq_refl) as (H1 & H2 & H3).
  unfold flags. by rewrite H1, H2, H3.
Defined.

(** ** signOut and signIn *)

(** Claim C5.  [signOut] always returns; when it returns a null error, the
    cached identity and profile are null and the three flags are false,
    in the singleton and in the component: the cache is the empty one,
    and no role is held any more. *)
Theorem signOut_success_clears (supabase : Backend)
  (c : useAuth.component) :
  exists r c', useAuth.signOut supabase c = (Normal r, c')
    /\ AuthService.signOut supabase (useAuth.service c)
       = (Normal r, useAuth.service c')
    /\ (SignOutResult.error r = None ->
        cache c' = empty_cache
        /\ forall role, useAuth.hasRole c' role = false).
Proof.
  destruct (hook_signOut_returns supabase c) as (r & c' & Hrun & Hsvc & Hv).
  exists r, c'. split; [done |]. split; [done |]. intros He.
  destruct (signOut_returns supabase (useAuth.service c))
    as (r0 & w0 & Hrun0 & _ & _ & Hc).
  rewrite Hsvc in Hrun0. injection Hrun0 as <- <-.
  rewrite He in Hc, Hv. destruct Hc as [Hu Hp]. split.
  - unfold cache, empty_cache. rewrite Hu, Hp, Hv. reflexivity.
  - intros role. unfold useAuth.hasRole. by apply hasRole_no_profile.
Qed.

Lemma signOut_success_clears_witness :
  exists c', useAuth.signOut refusing editor_signed_in
             = (Normal (SignOutResult.mk None), c')
    /\ cache c' = empty_cache.
Proof.
  destruct (signOut_success_clears refusing editor_signed_in)
    as (r & c' & Hrun & _ & Hclear).
  vm_compute in Hrun. injection Hrun as <- <-.
  eexists. split; [reflexivity |]. exact (proj1 (Hclear eq_refl)).
Defined.

(** Claim C6.  [signIn] never throws: it always returns a {user, session,
    error} triple; and when the provider answers with an error, the
    returned error is that error, the returned user is null, and the
    cached profile, in the singleton and in the component, is what it
    was before the call. *)
Theorem signIn_never_throws (supabase : Backend) (email password : string)
  (rememberMe : bool) (c : useAuth.component) :
  exists r c', useAuth.signIn supabase email password rememberMe c
               = (Normal r, c')
    /\ AuthService.signIn supabase email password rememberMe
         (useAuth.service c) = (Normal r, useAuth.service c')
    /\ forall e,
         signIn_failure supabase (useAuth.service c) email password = Some e ->
         SignInResult.error r = Some e
         /\ SignInResult.user r = None
         /\ AuthService.currentProfile (AuthService.this (useAuth.service c'))
            = AuthService.currentProfile
                (AuthService.this (useAuth.service c))
         /\ useAuth.profile (useAuth.view c')
            = useAuth.profile (useAuth.view c).
Proof.
  destruct (hook_signIn_returns supabase email password rememberMe c)
    as (r & c' & Hrun & Hsvc & Hview).
  exists r, c'. split; [done |]. split; [done |].
  intros e He. unfold signIn_failure in He.
  destruct (signInWithPassword supabase _) as [[data error] | e'] eqn:Ha.
  - subst error.
    destruct (signIn_error supabase email password rememberMe _ data e Ha)
      as (w' & Hrun' & Hthis).
    rewrite Hsvc in Hrun'. injection Hrun' as -> <-. simpl.
    rewrite Hthis, Hview by done. done.
  - injection He as ->.
    rewrite (signIn_rejected supabase email password rememberMe _ e Ha)
      in Hsvc.
    injection Hsvc as <- <-. simpl. by rewrite Hview.
Qed.

Lemma signIn_never_throws_witness :
  signIn_failure refusing (useAuth.service editor_signed_in)
    "alice@example.org" "guess" = Some invalid_credentials
  /\ exists c', useAuth.signIn refusing "alice@example.org" "guess" false
                  editor_signed_in
                = (Normal (SignInResult.mk None None
                             (Some invalid_credentials)), c')
       /\ useAuth.profile (useAuth.view c')
          = Some (sample_profile "editor" "active").
Proof.
  split; [reflexivity |].
  destruct (signIn_never_throws refusing "alice@example.org" "guess" false
              editor_signed_in) as (r & c' & Hrun & _ & Herr).
  destruct (Herr invalid_credentials eq_refl) as (_ & _ & _ & Hp).
  vm_compute in Hrun. injection Hrun as <- <-.
  eexists. split; [reflexivity |]. exact Hp.
Defined.

(** ** initialize *)




(** ** createUser *)

(** Claim C9.  Whenever the cached profile does not satisfy
    [hasRole('admin')], that is, there is no profile, or its status is
    not 'active', or its role is neither 'admin' nor 'super_admin',
    [createUser] returns a null user with the permission error, and the
    world is untouched: no user creation and no profile write is sent. *)
Theorem createUser_requires_admin (supabase : Backend)
  (email password fullName role : string) (c : useAuth.component) :
  useAuth.hasRole c "admin" = false ->
  let denied :=
    UserResult.mk None (Some (Js.Error "Permissions insuffisantes" None)) in
  match AuthService.currentProfile (AuthService.this (useAuth.service c)) with
  | None => True
  | Some p =>
      UserProfile.status p <> "active"
      \/ (UserProfile.role p <> "admin"
          /\ UserProfile.role p <> "super_admin")
  end
  /\ AuthService.createUser supabase email password fullName role
       (useAuth.service c) = (Normal denied, useAuth.service c)
  /\ useAuth.createUser supabase email password fullName role c
     = (Normal denied, c).
Proof.
  intros Hno denied. unfold useAuth.hasRole in Hno. split; [| split].
  - destruct (AuthService.currentProfile _) as [p |] eqn:Hp; [| done].
    destruct (decide (UserProfile.status p = "active")) as [Hs | Hs];
      [| by left].
    right. split; intros Hr;
      (assert (AuthService.hasRole (AuthService.this (useAuth.service c))
                 "admin" = true) as Hyes
         by (apply hasRole_admin_spec; exists p; tauto));
      congruence.
  - by apply createUser_denied.
  - destruct (hook_createUser_run supabase email password fullName role c)
      as (r & w' & Hr & Hh).
    rewrite (createUser_denied supabase email password fullName role _ Hno)
      in Hr.
    injection Hr as <- <-. rewrite Hh. by destruct c.
Qed.

Lemma createUser_requires_admin_witness :
  useAuth.hasRole editor_signed_in "admin" = false
  /\ useAuth.createUser refusing "bob@example.org" "secret" "Bob" "admin"
       editor_signed_in
     = (Normal (UserResult.mk None
                  (Some (Js.Error "Permissions insuffisantes" None))),
        editor_signed_in).
Proof.
  split; [reflexivity |].
  exact (proj2 (proj2 (createUser_requires_admin refusing
    "bob@example.org" "secret" "Bob" "admin" editor_signed_in eq_refl))).
Defined.

(** ** Route guards *)

(** Claim C8.  While [initializing] is true each guard renders the
    loading placeholder, so none redirects; once it is false,
    ProtectedRoute renders its children iff isAdmin or isEditor and else
    redirects to /admin/login, AdminOnlyRoute renders them iff isAdmin
    or isSuperAdmin and else redirects to /admin, SuperAdminOnlyRoute
    renders them iff isSuperAdmin and else redirects to /admin.  The
    guards that wait on [loading] render the same in every state of the
    hook, where [loading] and [initializing] agree. *)
Theorem route_guards {ReactNode : Type} (children : ReactNode)
  (h : useAuth.state) :
  (useAuth.initializing h = true ->
   App.ProtectedRoute children h = Placeholder
   /\ App.AdminOnlyRoute children h = Placeholder
   /\ App.SuperAdminOnlyRoute children h = Placeholder)
  /\ (useAuth.initializing h = false ->
      App.ProtectedRoute children h
      = (if useAuth.isAdmin h || useAuth.isEditor h
         then Children children else Navigate "/admin/login" true)
      /\ App.AdminOnlyRoute children h
         = (if useAuth.isAdmin h || useAuth.isSuperAdmin h
            then Children children else Navigate "/admin" true)
      /\ App.SuperAdminOnlyRoute children h
         = (if useAuth.isSuperAdmin h
            then Children children else Navigate "/admin" true))
  /\ (forall supabase w actions,
        h = useAuth.view (after supabase actions (mount w)) ->
        AppLoading.ProtectedRoute children h = App.ProtectedRoute children h
        /\ AppLoading.AdminOnlyRoute children h
           = App.AdminOnlyRoute children h
        /\ AppLoading.SuperAdminOnlyRoute children h
           = App.SuperAdminOnlyRoute children h).
Proof.
  split; [| split].
  - intros Hi. unfold App.ProtectedRoute, App.AdminOnlyRoute,
      App.SuperAdminOnlyRoute. by rewrite Hi.
  - intros Hi. unfold App.ProtectedRoute, App.AdminOnlyRoute,
      App.SuperAdminOnlyRoute. rewrite Hi.
    by destruct (useAuth.isAdmin h), (useAuth.isEditor h),
      (useAuth.isSuperAdmin h).
  - intros supabase w actions ->.
    destruct (after_coherent supabase actions (mount w) initial_coherent)
      as [_ Hl].
    unfold AppLoading.ProtectedRoute, AppLoading.AdminOnlyRoute,
      AppLoading.SuperAdminOnlyRoute, App.ProtectedRoute,
      App.AdminOnlyRoute, App.SuperAdminOnlyRoute.
    by rewrite Hl.
Qed.

Lemma route_guards_witness :
  App.ProtectedRoute "dashboard" useAuth.initial = Placeholder
  /\ App.AdminOnlyRoute "team" (useAuth.view editor_signed_in)
     = Navigate "/admin" true
  /\ AppLoading.ProtectedRoute "dashboard"
       (useAuth.view (after refusing [Mount]
          (mount (AuthService.mkWorld AuthService.new []))))
     = Navigate "/admin/login" true.
Proof.
  split; [| split].
  - exact (proj1 (proj1 (route_guards "dashboard" useAuth.initial) eq_refl)).
  - exact (proj1 (proj2 (proj1 (proj2
      (route_guards "team" (useAuth.view editor_signed_in))) eq_refl))).
  - rewrite (proj1 (proj2 (proj2 (route_guards "dashboard" _))
      refusing (AuthService.mkWorld AuthService.new []) [Mount] eq_refl)).
    reflexivity.
Defined.

(** ** The model at work *)

Example hasRole_admin_of_super_admin :
  AuthService.hasRole (cached (sample_profile "super_admin" "active")) "admin"
  = true.
Proof. reflexivity. Qed.

Example hasRole_admin_of_editor :
  AuthService.hasRole (cached (sample_profile "editor" "active")) "admin"
  = false.
Proof. reflexivity. Qed.

Example hasRole_admin_of_banned_admin :
  AuthService.hasRole (cached (sample_profile "admin" "banned")) "admin"
  = false.
Proof. reflexivity. Qed.

Example hasRole_toString :
  AuthService.hasRole (cached (sample_profile "super_admin" "active"))
    "toString" = false.
Proof. reflexivity. Qed.

Example includes_refresh_token :
  includes "AuthApiError: refresh_token_not_found" "refresh_token_not_found"
  = true
  /\ includes "Invalid login credentials" "Refresh Token Not Found" = false.
Proof. split; reflexivity. Qed.

(** A first [initialize] with an open session and a missing profile row:
    four requests, a default profile, default settings. *)
Example initialize_provisions :
  AuthService.initialize provisioning (AuthService.mkWorld AuthService.new [])
  = (Normal tt,
     AuthService.mkWorld
       (AuthService.mk (Some alice) (Some (sample_profile "user" "active"))
          (Some (SystemSettings.mk (SBool true) (SBool false) (SNumber "8")
                   (SNumber "5") (SNumber "24")))
          true)
       [ auth_getSession;
         user_profiles_select_single "u1";
         auth_getUser;
         user_profiles_insert_single
           (mkProfileData "u1" "user" "active" true 0
              (Js.JObject []) (Js.JObject []));
         system_settings_select ]).
Proof. reflexivity. Qed.

(** The settings rows are converted and the missing keys defaulted. *)
Example loadSystemSettings_converts :
  AuthService.settings (AuthService.this
    (AuthService.loadSystemSettings refusing
       (AuthService.mkWorld AuthService.new [])).2)
  = Some (SystemSettings.mk (SBool false) (SBool false) (SNumber "12")
            (SNumber "5") (SNumber "24")).
Proof. reflexivity. Qed.

(** A successful sign-in: the profile is loaded, the login is recorded
    (the rejected log request is swallowed), and the hook shows a user. *)
Example signIn_succeeds :
  (useAuth.signIn provisioning "alice@example.org" "secret" false
     (mount (AuthService.mkWorld AuthService.new []))).2
  = useAuth.mkComponent
      (AuthService.mkWorld
         (AuthService.mk (Some alice) (Some (sample_profile "user" "active"))
            None false)
         [ auth_signInWithPassword "alice@example.org" "secret";
           user_profiles_select_single "u1";
           auth_getUser;
           user_profiles_insert_single
             (mkProfileData "u1" "user" "active" true 0
                (Js.JObject []) (Js.JObject []));
           user_profiles_update_last_login "u1" "2025-07-11T01:20:02.000Z";
           login_attempts_insert "alice@example.org" true None "agent" ])
      (useAuth.mk None (Some (sample_profile "user" "active")) None
         true true false false false)
      true.
Proof. reflexivity. Qed.

(** A failed sign-out keeps everything. *)
Example signOut_fails :
  useAuth.signOut provisioning editor_signed_in
  = (Normal (SignOutResult.mk (Some network_error)),
     useAuth.mkComponent
       (AuthService.mkWorld
          (AuthService.this (useAuth.service editor_signed_in))
          [auth_signOut])
       (useAuth.view editor_signed_in) true).
Proof. reflexivity. Qed.

(** * Further behaviour of the service *)

Section ServiceBehaviour.
Variable supabase : Backend.

(** ** System settings *)

(** Property X1.
    When the settings request is rejected or answered with an error,
    [loadSystemSettings] caches the default settings, having sent that
    one request, and touches nothing else. *)
Theorem loadSystemSettings_defaults (w : AuthService.world) :
  settings_unavailable supabase w = true ->
  AuthService.loadSystemSettings supabase w
  = (Normal tt,
     AuthService.mkWorld
       (AuthService.mk (AuthService.currentUser (AuthService.this w))
          (AuthService.currentProfile (AuthService.this w))
          (Some default_settings)
          (AuthService.initialized (AuthService.this w)))
       (AuthService.calls w ++ [system_settings_select])%list).
Proof.
  unfold settings_unavailable, AuthService.loadSystemSettings,
    AuthService.setDefaultSettings.
  unfold_monad. simpl.
  by destruct (select_settings supabase _) as [[data [e |]] | e].
Qed.

Lemma collect_lookup_from (rows : list SettingRow) (k : string)
  (acc : gmap string setting) :
  foldl (fun acc row =>
           <[setting_key row :=
               AuthService.convert supabase (setting_value row)]> acc)
        acc rows !! k
  = match last_value k rows with
    | Some v => Some (AuthService.convert supabase v)
    | None => acc !! k
    end.
Proof.
  revert acc. induction rows as [| row rows IH]; intros acc; [done |].
  simpl. rewrite IH. destruct (last_value k rows) as [v |]; [done |].
  case_bool_decide as Hk.
  - subst k. by rewrite lookup_insert_eq.
  - by rewrite lookup_insert_ne.
Qed.

(** Reading a key from the collected rows gives the conversion of the
    last row with that key, and nothing when no row has it. *)
Lemma collect_lookup (data : option (list SettingRow)) (k : string) :
  AuthService.collect supabase data !! k
  = AuthService.convert supabase <$> last_value k (default [] data).
Proof.
  unfold AuthService.collect. rewrite collect_lookup_from.
  by destruct (last_value k _).
Qed.

(** Property X2.
    When the settings request succeeds, each field is the conversion of
    the last row with its key, and the default where no row has the key;
    rows with other keys are ignored.  Two kinds of rows are kept out of
    the statement: a row keyed [__proto__], whose assignment would
    replace the prototype of the collecting object instead of adding a
    property, and a row holding a JSON null, which [??] would treat as
    missing should the conversion leave it as it is. *)
Theorem loadSystemSettings_last_row_wins (w : AuthService.world)
  (data : option (list SettingRow)) :
  select_settings supabase
    (AuthService.calls w ++ [system_settings_select])%list
    = Resolved (data, None) ->
  "__proto__" ∉ setting_key <$> default [] data ->
  Js.JNull ∉ setting_value <$> default [] data ->
  let field k d :=
    default d (AuthService.convert supabase
                 <$> last_value k (default [] data)) in
  AuthService.settings
    (AuthService.this (AuthService.loadSystemSettings supabase w).2)
  = Some (SystemSettings.mk
            (field "global_signup_enabled" (SBool true))
            (field "email_verification_required" (SBool false))
            (field "password_min_length" (SNumber "8"))
            (field "max_login_attempts" (SNumber "5"))
            (field "session_timeout_hours" (SNumber "24"))).
Proof.
  intros Ha _ _ field. unfold AuthService.loadSystemSettings.
  unfold_monad. simpl. rewrite Ha. simpl.
  unfold AuthService.nullish. by rewrite !collect_lookup.
Qed.

(** Property X3.
    [isSignupEnabled] never throws and loads the settings at most once:
    with settings cached it sends nothing, without it sends the one
    settings request; either way the settings are cached afterwards, and
    asking again gives the same answer without any request. *)
Theorem isSignupEnabled_lazy (w : AuthService.world) :
  exists r w', AuthService.isSignupEnabled supabase w = (Normal r, w')
    /\ AuthService.calls w'
       = match AuthService.settings (AuthService.this w) with
         | Some _ => AuthService.calls w
         | None => (AuthService.calls w ++ [system_settings_select])%list
         end
    /\ is_Some (AuthService.settings (AuthService.this w'))
    /\ AuthService.isSignupEnabled supabase w' = (Normal r, w').
Proof.
  unfold AuthService.isSignupEnabled at 1. unfold_monad. simpl.
  destruct (AuthService.settings (AuthService.this w)) as [x |] eqn:Hs; simpl.
  - exists (SystemSettings.global_signup_enabled x), w.
    rewrite Hs. split; [done |]. split; [done |]. split; [eauto |].
    unfold AuthService.isSignupEnabled. unfold_monad. simpl.
    by rewrite !Hs.
  - unfold AuthService.loadSystemSettings, AuthService.setDefaultSettings.
    unfold_monad. simpl.
    destruct (select_settings supabase _) as [[data [e |]] | e]; simpl;
      eexists _, _; (split; [reflexivity |]); simpl;
      (split; [reflexivity |]); (split; [eauto |]);
      unfold AuthService.isSignupEnabled; unfold_monad; reflexivity.
Qed.

(** Property X4.
    Sign-up is reported as enabled when the settings are not cached and
    cannot be loaded. *)
Theorem isSignupEnabled_open_on_failure (w : AuthService.world) :
  AuthService.settings (AuthService.this w) = None ->
  settings_unavailable supabase w = true ->
  (AuthService.isSignupEnabled supabase w).1 = Normal (SBool true).
Proof.
  intros Hs Hf. unfold settings_unavailable in Hf.
  unfold AuthService.isSignupEnabled, AuthService.loadSystemSettings,
    AuthService.setDefaultSettings.
  unfold_monad. simpl. rewrite Hs.
  by destruct (select_settings supabase _) as [[data [e |]] | e].
Qed.

(** ** Profile loading *)

(** Property X5.
    When the profile row does not exist (error code PGRST116) and both
    requests of [createMissingProfile] succeed, the row asked for is an
    active 'user' profile for that id, and the row the backend returns
    becomes the cached profile. *)
Theorem loadUserProfile_creates_missing (userId : string)
  (w : AuthService.world) (p d : option UserProfile.t) (e : Js.error)
  (u : option User.t * option Js.error) :
  let h1 := (AuthService.calls w
             ++ [user_profiles_select_single userId])%list in
  let h2 := (h1 ++ [auth_getUser])%list in
  let h3 := (h2 ++ [user_profiles_insert_single
                      (default_profile_data userId)])%list in
  select_profile supabase h1 = Resolved (p, Some e) ->
  Js.code e = Some "PGRST116" ->
  getUser supabase h2 = Resolved u ->
  insert_profile supabase h3 = Resolved (d, None) ->
  AuthService.loadUserProfile supabase userId w
  = (Normal tt,
     AuthService.mkWorld (with_profile d (AuthService.this w)) h3).
Proof.
  intros h1 h2 h3 H1 Hc H2 H3.
  unfold AuthService.loadUserProfile, AuthService.createMissingProfile.
  unfold_monad. simpl. fold h1. rewrite H1. simpl.
  rewrite (bool_decide_eq_true_2 _ Hc). simpl.
  fold h2. rewrite H2. simpl.
  unfold default_profile_data in h3. fold h3. by rewrite H3.
Qed.

(** Property X6.
    When the profile request is rejected, or answered with an error
    other than PGRST116, the cached profile is dropped. *)
Theorem loadUserProfile_failure_clears (userId : string)
  (w : AuthService.world) :
  match select_profile supabase
          (AuthService.calls w ++ [user_profiles_select_single userId])%list
  with
  | Resolved (_, Some e) => Js.code e <> Some "PGRST116"
  | Resolved (_, None) => False
  | Rejected _ => True
  end ->
  AuthService.loadUserProfile supabase userId w
  = (Normal tt,
     AuthService.mkWorld (with_profile None (AuthService.this w))
       (AuthService.calls w ++ [user_profiles_select_single userId])%list).
Proof.
  unfold AuthService.loadUserProfile. unfold_monad. simpl.
  destruct (select_profile supabase _) as [[p [e |]] | e]; simpl;
    intros H; try done.
  by rewrite (bool_decide_eq_false_2 _ H).
Qed.

(** Property X7.
    When the profile row does not exist and creating it fails (a request
    of [createMissingProfile] is rejected, or the insert is answered
    with an error), the cached profile stays what it was before. *)
Theorem loadUserProfile_creation_failure_keeps (userId : string)
  (w : AuthService.world) (p : option UserProfile.t) (e : Js.error) :
  let h1 := (AuthService.calls w
             ++ [user_profiles_select_single userId])%list in
  let h2 := (h1 ++ [auth_getUser])%list in
  let h3 := (h2 ++ [user_profiles_insert_single
                      (default_profile_data userId)])%list in
  select_profile supabase h1 = Resolved (p, Some e) ->
  Js.code e = Some "PGRST116" ->
  match getUser supabase h2, insert_profile supabase h3 with
  | Rejected _, _ => True
  | Resolved _, Rejected _ => True
  | Resolved _, Resolved (_, Some _) => True
  | Resolved _, Resolved (_, None) => False
  end ->
  AuthService.this (AuthService.loadUserProfile supabase userId w).2
  = AuthService.this w.
Proof.
  intros h1 h2 h3 H1 Hc Hf.
  unfold AuthService.loadUserProfile, AuthService.createMissingProfile.
  unfold_monad. simpl. fold h1. rewrite H1. simpl.
  rewrite (bool_decide_eq_true_2 _ Hc). simpl. fold h2.
  destruct (getUser supabase h2) as [u | eu]; simpl; [| done].
  unfold default_profile_data in h3. fold h3.
  by destruct (insert_profile supabase h3) as [[d [ei |]] | ei].
Qed.

(** ** signIn *)

(** Property X8.
    A sign-in the provider answers with an error sends exactly two
    requests, the sign-in and the record of the failed attempt with the
    provider's message, and leaves the singleton as it was; the outcome
    of the recording request does not matter. *)
Theorem signIn_records_failure (email password : string)
  (rememberMe : bool) (w : AuthService.world) (data : AuthData)
  (e : Js.error) :
  signInWithPassword supabase
    (AuthService.calls w ++ [auth_signInWithPassword email password])%list
    = Resolved (data, Some e) ->
  AuthService.signIn supabase email password rememberMe w
  = (Normal (SignInResult.mk None None (Some e)),
     AuthService.mkWorld (AuthService.this w)
       (AuthService.calls w
        ++ [auth_signInWithPassword email password;
            login_attempts_insert email false (Some (Js.message e))
              (userAgent supabase)])%list).
Proof.
  intros Ha. unfold AuthService.signIn, AuthService.logLoginAttempt.
  unfold_monad. simpl. rewrite Ha. simpl.
  rewrite <- !app_assoc. simpl.
  by destruct (insert_login_attempt supabase _); destruct w.
Qed.

Lemma loadUserProfile_requests (userId : string) (w : AuthService.world) :
  exists w' mid,
    AuthService.loadUserProfile supabase userId w = (Normal tt, w')
    /\ profile_frame w w'
    /\ AuthService.calls w'
       = (AuthService.calls w ++ user_profiles_select_single userId :: mid)%list.
Proof.
  unfold AuthService.loadUserProfile, AuthService.createMissingProfile.
  unfold_monad. simpl.
  destruct (select_profile supabase _) as [[p [e |]] | e]; simpl;
    try (by eexists _, []).
  case_bool_decide; simpl; [| by eexists _, []].
  destruct (getUser supabase _) as [g | eg]; simpl;
    [| eexists _, [_]; repeat split; simpl; by rewrite <- app_assoc].
  destruct (insert_profile supabase _) as [[d [ei |]] | ei]; simpl;
    eexists _, [_; _]; repeat split; simpl; by rewrite <- !app_assoc.
Qed.

Lemma updateLastLogin_requests (userId : string) (w : AuthService.world) :
  AuthService.updateLastLogin supabase userId w
  = (Normal tt,
     AuthService.mkWorld (AuthService.this w)
       (AuthService.calls w
        ++ [user_profiles_update_last_login userId
              (toISOString supabase (AuthService.calls w))])%list).
Proof.
  unfold AuthService.updateLastLogin. unfold_monad. simpl.
  by destruct (update_profile supabase _).
Qed.

Lemma logLoginAttempt_requests (email : string) (success : bool)
  (errorType : option string) (w : AuthService.world) :
  AuthService.logLoginAttempt supabase email success errorType w
  = (Normal tt,
     AuthService.mkWorld (AuthService.this w)
       (AuthService.calls w
        ++ [login_attempts_insert email success errorType
              (userAgent supabase)])%list).
Proof.
  unfold AuthService.logLoginAttempt. unfold_monad. simpl.
  by destruct (insert_login_attempt supabase _).
Qed.

(** Property X9.
    A sign-in the provider accepts with a user caches that user, hands
    user and session back with a null error, asks for the profile row of
    that user right after signing in, and ends by stamping the last
    login and recording the successful attempt; the settings and the
    [initialized] mark are not touched. *)
Theorem signIn_success (email password : string) (rememberMe : bool)
  (w : AuthService.world) (u : User.t) (sess : option Session.t) :
  signInWithPassword supabase
    (AuthService.calls w ++ [auth_signInWithPassword email password])%list
    = Resolved (mkAuthData (Some u) sess, None) ->
  exists w' mid stamp,
    AuthService.signIn supabase email password rememberMe w
    = (Normal (SignInResult.mk (Some u) sess None), w')
    /\ AuthService.currentUser (AuthService.this w') = Some u
    /\ AuthService.settings (AuthService.this w')
       = AuthService.settings (AuthService.this w)
    /\ AuthService.initialized (AuthService.this w')
       = AuthService.initialized (AuthService.this w)
    /\ AuthService.calls w'
       = (AuthService.calls w
          ++ [auth_signInWithPassword email password;
              user_profiles_select_single (User.id u)]
          ++ mid
          ++ [user_profiles_update_last_login (User.id u) stamp;
              login_attempts_insert email true None (userAgent supabase)])%list.
Proof.
  intros Ha. unfold AuthService.signIn. unfold_monad. simpl.
  rewrite Ha. simpl.
  match goal with
  | |- context [AuthService.loadUserProfile _ _ ?w0] =>
      destruct (loadUserProfile_requests (User.id u) w0)
        as (w1 & mid & -> & (Hu & Hs & Hi) & Hc)
  end.
  simpl in *. rewrite updateLastLogin_requests. simpl.
  rewrite logLoginAttempt_requests. simpl.
  eexists _, mid, _. split; [reflexivity |]. simpl.
  repeat split; try done.
  rewrite Hc. rewrite <- !app_assoc. reflexivity.
Qed.

(** ** signUp, signOut, createUser *)

(** Property X10.
    [signUp] only passes the request on: whatever the provider answers,
    even a new user, the singleton and the component's state cells stay
    as they were, and one request has been sent. *)
Theorem signUp_caches_nothing (email password : string)
  (fullName : option string) (c : useAuth.component) :
  exists r,
    useAuth.signUp supabase email password fullName c
    = (Normal r,
       useAuth.mkComponent
         (AuthService.mkWorld (AuthService.this (useAuth.service c))
            (AuthService.calls (useAuth.service c)
             ++ [auth_signUp email password fullName])%list)
         (useAuth.view c) (useAuth.mounted c))
    /\ r = match signUp_response supabase
                   (AuthService.calls (useAuth.service c)
                    ++ [auth_signUp email password fullName])%list
           with
           | Resolved (user, None) => UserResult.mk user None
           | Resolved (_, Some e) => UserResult.mk None (Some e)
           | Rejected e => UserResult.mk None (Some e)
           end.
Proof.
  unfold useAuth.signUp. unfold_monad. rewrite on_service_run.
  unfold AuthService.signUp. unfold_monad. simpl.
  destruct (signUp_response supabase _) as [[user [e |]] | e]; simpl;
    by eexists.
Qed.

(** Property X11.
    A sign-out the provider refuses (by an error or a rejection) hands
    that error back and keeps everything cached: the singleton and the
    component's state cells are as before. *)
Theorem signOut_failure_keeps_cache (c : useAuth.component) (e : Js.error) :
  signOut_failure supabase (useAuth.service c) = Some e ->
  useAuth.signOut supabase c
  = (Normal (SignOutResult.mk (Some e)),
     useAuth.mkComponent
       (AuthService.mkWorld (AuthService.this (useAuth.service c))
          (AuthService.calls (useAuth.service c) ++ [auth_signOut])%list)
       (useAuth.view c) (useAuth.mounted c)).
Proof.
  unfold signOut_failure. intros He.
  unfold useAuth.signOut. unfold_monad. rewrite on_service_run.
  unfold AuthService.signOut. unfold_monad. simpl.
  destruct (signOut_response supabase _) as [[e' |] | e']; simplify_eq/=;
    reflexivity.
Qed.

(** Property X12.
    For an admin, [createUser] writes a profile only after the provider
    has created a user: the upsert carries the id of that user and the
    full name and role as given, unchecked.  When the creation is
    refused, its error is handed back and no profile is written. *)
Theorem createUser_writes_after_creation
  (email password fullName role : string) (w : AuthService.world) :
  AuthService.hasRole (AuthService.this w) "admin" = true ->
  let h1 := (AuthService.calls w
             ++ [auth_admin_createUser email password fullName])%list in
  exists r w',
    AuthService.createUser supabase email password fullName role w
    = (Normal r, w')
    /\ AuthService.this w' = AuthService.this w
    /\ match admin_createUser supabase h1 with
       | Resolved (Some u, None) =>
           AuthService.calls w'
           = (h1 ++ [user_profiles_upsert (User.id u) fullName role])%list
       | Resolved (None, None) =>
           AuthService.calls w' = h1 /\ r = UserResult.mk None None
       | Resolved (_, Some e) | Rejected e =>
           AuthService.calls w' = h1 /\ r = UserResult.mk None (Some e)
       end.
Proof.
  intros Hr h1. unfold AuthService.createUser. unfold_monad. simpl.
  rewrite Hr. simpl. fold h1.
  destruct (admin_createUser supabase h1) as [[[u |] [e |]] | e]; simpl;
    try (eexists _, _; by repeat split).
  destruct (upsert_profile supabase _); simpl; eexists _, _; by repeat split.
Qed.

(** Property X13.
    Once the user is created, [createUser] reports success whenever the
    profile upsert resolves, even with an error in its answer; only a
    rejected upsert turns the result into an error, and then no user is
    handed back although one was created. *)
Theorem createUser_ignores_upsert_error
  (email password fullName role : string) (w : AuthService.world)
  (u : User.t) :
  AuthService.hasRole (AuthService.this w) "admin" = true ->
  let h1 := (AuthService.calls w
             ++ [auth_admin_createUser email password fullName])%list in
  let h2 := (h1 ++ [user_profiles_upsert (User.id u) fullName role])%list in
  admin_createUser supabase h1 = Resolved (Some u, None) ->
  (AuthService.createUser supabase email password fullName role w).1
  = Normal match upsert_profile supabase h2 with
           | Resolved _ => UserResult.mk (Some u) None
           | Rejected e => UserResult.mk None (Some e)
           end.
Proof.
  intros Hr h1 h2 Ha. unfold AuthService.createUser. unfold_monad. simpl.
  rewrite Hr. simpl. fold h1. rewrite Ha. simpl. fold h2.
  by destruct (upsert_profile supabase h2).
Qed.

End ServiceBehaviour.

(** * Roles, flags and activity *)

(** Property X14.
    Holding any role requires an active profile, and for a profile with
    one of the four roles, holding the 'user' role is the same as being
    active. *)
Theorem hasRole_user_iff_active (s : AuthService.t) (p : UserProfile.t) :
  AuthService.currentProfile s = Some p ->
  UserProfile.valid_role (UserProfile.role p) ->
  AuthService.hasRole s "user" = AuthService.isActive s
  /\ forall r, AuthService.hasRole s r = true -> AuthService.isActive s = true.
Proof.
  intros Hp Hv. unfold AuthService.isActive. rewrite Hp.
  destruct (decide (UserProfile.status p = "active")) as [Hs | Hs].
  - rewrite (bool_decide_eq_true_2 _ Hs). split; [| done].
    rewrite (hasRole_active s p) by done.
    unfold UserProfile.valid_role in Hv.
    rewrite !elem_of_cons, elem_of_nil in Hv.
    by destruct Hv as [-> | [-> | [-> | [-> | []]]]].
  - rewrite (bool_decide_eq_false_2 _ Hs).
    split; [by apply (hasRole_inactive s p) |].
    intros r. by rewrite (hasRole_inactive s p).
Qed.

Lemma hasRole_user_iff_active_witness :
  UserProfile.valid_role (UserProfile.role (sample_profile "editor" "active"))
  /\ AuthService.hasRole (cached (sample_profile "editor" "active")) "user"
     = AuthService.isActive (cached (sample_profile "editor" "active")).
Proof.
  assert (H : UserProfile.valid_role
                (UserProfile.role (sample_profile "editor" "active")))
    by decide_closed.
  exact (conj H (proj1 (hasRole_user_iff_active
    (cached (sample_profile "editor" "active"))
    (sample_profile "editor" "active") eq_refl H))).
Defined.

(** The flags the specification derives from a cached profile are the
    service's answers for the three staff roles. *)
Lemma derived_hasRole (s : AuthService.t) :
  derived (AuthService.currentProfile s)
  = (AuthService.hasRole s "super_admin", AuthService.hasRole s "admin",
     AuthService.hasRole s "editor").
Proof.
  unfold derived.
  destruct (AuthService.currentProfile s) as [p |] eqn:Hp;
    [| by rewrite !hasRole_no_profile].
  destruct (decide (UserProfile.status p = "active")) as [Hs | Hs].
  - rewrite (bool_decide_eq_true_2 _ Hs).
    rewrite !(hasRole_active s p) by done.
    rewrite level_super_admin, level_admin, level_editor, !ge_number_r.
    rewrite (level_to_number (UserProfile.role p)).
    repeat case_bool_decide; simpl; try reflexivity; exfalso;
      intuition congruence.
  - rewrite (bool_decide_eq_false_2 _ Hs).
    by rewrite !(hasRole_inactive s p).
Qed.

(** Property X15.
    The flags the hook derives are the answers of the service's role
    check: whatever profile is cached, even one with an unknown role or
    none at all, [updateRoles] on it yields hasRole('super_admin'),
    hasRole('admin') and hasRole('editor'). *)
Theorem flags_agree_with_hasRole (s : AuthService.t) (h : useAuth.state) :
  flags (useAuth.updateRoles (AuthService.getCurrentProfile s) h)
  = (AuthService.hasRole s "super_admin", AuthService.hasRole s "admin",
     AuthService.hasRole s "editor").
Proof.
  rewrite updateRoles_flags. unfold AuthService.getCurrentProfile.
  apply derived_hasRole.
Qed.

(** * Further behaviour of the hook *)

(** Run a handler symbolically on every backend answer. *)
Ltac run_hook :=
  unfold_hook;
  repeat (first [ progress simpl | case_match; simplify_eq/= ]).

(** [AuthService.initialize] does not throw. *)
Ltac initialize_no_throw :=
  match goal with
  | H : AuthService.initialize ?B ?w = (Throw _, _) |- _ =>
      let Hr := fresh in
      destruct (initialize_returns B w) as (? & Hr & _);
      rewrite Hr in H; discriminate H
  end.

Section HookBehaviour.
Variable supabase : Backend.


Lemma handle_resolved (a : action) (c : useAuth.component) :
  useAuth.initializing (useAuth.view c) = false ->
  useAuth.initializing (useAuth.view (handle supabase a c)) = false.
Proof.
  intros Hi. destruct a; simpl;
    [ unfold useAuth.initialize | unfold useAuth.onAuthStateChange
    | unfold useAuth.signIn | unfold useAuth.signOut
    | unfold useAuth.signUp | unfold useAuth.createUser
    | unfold useAuth.cleanup | ];
    run_hook; cells; congruence.
Qed.

(** Property X16.
    Once [initializing] is false it never becomes true again, whatever
    happens to the component afterwards. *)
Theorem initializing_never_returns (actions : list action)
  (c : useAuth.component) :
  useAuth.initializing (useAuth.view c) = false ->
  useAuth.initializing (useAuth.view (after supabase actions c)) = false.
Proof.
  revert c. induction actions as [| a actions IH]; intros c Hi; [done |].
  apply IH. by apply handle_resolved.
Qed.

(** Property X17.
    On a mounted component the mount effect and the auth listener always
    end with [initializing] and [loading] false, whatever the backend
    answers: the loading placeholder cannot stay for ever. *)
Theorem effect_ends_initializing (a : action) (c : useAuth.component) :
  useAuth.mounted c = true ->
  match a with Mount | AuthStateChange _ _ => True | _ => False end ->
  useAuth.initializing (useAuth.view (handle supabase a c)) = false
  /\ useAuth.loading (useAuth.view (handle supabase a c)) = false.
Proof.
  intros Hm Ha. destruct a; try done; simpl;
    [ unfold useAuth.initialize | unfold useAuth.onAuthStateChange ];
    run_hook; rewrite ?Hm in *; simplify_eq/=;
    try initialize_no_throw; by cells.
Qed.

(** The listener is its two halves run one after the other. *)
Lemma listener_split (event : string) (session : option Session.t)
  (c : useAuth.component) :
  useAuth.onAuthStateChange supabase event session c
  = bind (useAuth.listener_begin supabase event session)
      (fun pending : bool =>
         if pending then useAuth.listener_resume else ret tt) c.
Proof.
  unfold useAuth.onAuthStateChange, useAuth.listener_begin,
    useAuth.listener_resume.
  unfold_hook. destruct (useAuth.mounted c); simpl; [| done].
  destruct session as [sess |]; simpl; [| done].
  by destruct (AuthService.initialize supabase _) as [[[] | e] w'].
Qed.


(** What [shown] displays: the session and its user, the profile, the
    flags derived from it, and no loading mark. *)
Lemma shown_cells (session : option Session.t) (p : option UserProfile.t)
  (h : useAuth.state) :
  useAuth.session (shown session p h) = session
  /\ useAuth.authUser (shown session p h) = Session.user <$> session
  /\ useAuth.profile (shown session p h) = p
  /\ flags (shown session p h) = derived p
  /\ useAuth.loading (shown session p h) = false
  /\ useAuth.initializing (shown session p h) = false.
Proof.
  unfold shown. cells. repeat split; congruence.
Qed.

(** Property X19.
    When the auth listener fires without a session on a mounted
    component, the component shows nobody: session, user and profile are
    null and the flags false, even if the singleton still caches a
    profile; no request is sent and the singleton is not touched. *)
Theorem listener_signed_out (event : string) (c : useAuth.component) :
  useAuth.mounted c = true ->
  useAuth.onAuthStateChange supabase event None c
  = (Normal tt,
     useAuth.mkComponent (useAuth.service c)
       (useAuth.mk None None None false false false false false) true).
Proof.
  intros Hm. unfold useAuth.onAuthStateChange. unfold_hook.
  rewrite Hm. simpl. by rewrite Hm.
Qed.

(** Property X20.
    When the auth listener fires with a session and the singleton is
    already initialized, the profile is not fetched again: no request is
    sent, and the component shows the session with the profile the
    singleton has cached, whoever the session belongs to. *)
Theorem listener_shows_cached_profile (event : string) (sess : Session.t)
  (c : useAuth.component) :
  useAuth.mounted c = true ->
  AuthService.initialized (AuthService.this (useAuth.service c)) = true ->
  useAuth.onAuthStateChange supabase event (Some sess) c
  = (Normal tt,
     useAuth.mkComponent (useAuth.service c)
       (shown (Some sess)
          (AuthService.currentProfile (AuthService.this (useAuth.service c)))
          (useAuth.view c))
       true).
Proof.
  intros Hm Hi. unfold useAuth.onAuthStateChange. unfold_hook.
  rewrite Hm. simpl. rewrite (initialize_noop supabase _ Hi). simpl.
  rewrite Hm. by destruct c.
Qed.

(** Property X21.
    What the mount effect displays on a mounted component when its own
    session request is answered without error: the session, and with it
    the profile the singleton holds after [initialize]; without a session
    no profile, even if the singleton caches one. *)
Theorem mount_effect_shows_session (sess : option Session.t)
  (c : useAuth.component) :
  useAuth.mounted c = true ->
  let w1 := (AuthService.initialize supabase (useAuth.service c)).2 in
  let h1 := (AuthService.calls w1 ++ [auth_getSession])%list in
  getSession supabase h1 = Resolved (sess, None) ->
  useAuth.initialize supabase c
  = (Normal tt,
     useAuth.mkComponent (AuthService.mkWorld (AuthService.this w1) h1)
       (shown sess
          (match sess with
           | Some _ => AuthService.currentProfile (AuthService.this w1)
           | None => None
           end)
          (useAuth.view c))
       true).
Proof.
  intros Hm w1 h1 Ha.
  destruct (initialize_returns supabase (useAuth.service c))
    as (w' & Hr & _).
  subst h1 w1. rewrite Hr in *. simpl in *.
  unfold useAuth.initialize. unfold_hook. rewrite Hr. simpl.
  rewrite Hm. simpl. rewrite Ha. simpl.
  by destruct sess.
Qed.

(** Property X22.
    When the mount effect's session request is answered with an error,
    a sign-out request follows exactly when the error message names a
    missing refresh token. *)
Theorem mount_effect_drops_stale_token (sess : option Session.t)
  (e : Js.error) (c : useAuth.component) :
  useAuth.mounted c = true ->
  let w1 := (AuthService.initialize supabase (useAuth.service c)).2 in
  let h1 := (AuthService.calls w1 ++ [auth_getSession])%list in
  getSession supabase h1 = Resolved (sess, Some e) ->
  AuthService.calls (useAuth.service (useAuth.initialize supabase c).2)
  = (h1 ++ if is_refresh_token_error e then [auth_signOut] else [])%list.
Proof.
  intros Hm w1 h1 Ha.
  destruct (initialize_returns supabase (useAuth.service c))
    as (w' & Hr & _).
  subst h1 w1. rewrite Hr in *. simpl in *.
  unfold useAuth.initialize. unfold_hook. rewrite Hr. simpl.
  rewrite Hm. simpl. rewrite Ha. simpl.
  unfold is_refresh_token_error.
  destruct (includes _ _ || includes _ _); simpl.
  - unfold AuthService.signOut. unfold_monad. simpl.
    destruct (signOut_response supabase _) as [[e' |] | e']; simpl;
      rewrite ?Hm; by destruct sess.
  - rewrite ?Hm. rewrite app_nil_r. by destruct sess.
Qed.

(** Property X23.
    After a sign-in through the hook that hands back a user and no
    error, the component displays the profile the singleton has cached,
    and its three flags are the singleton's answers for 'super_admin',
    'admin' and 'editor'; the displayed user and session are left to the
    auth listener. *)
Theorem hook_signIn_success_shows_profile (email password : string)
  (rememberMe : bool) (c : useAuth.component) :
  exists r c', useAuth.signIn supabase email password rememberMe c
               = (Normal r, c')
    /\ (is_Some (SignInResult.user r) -> SignInResult.error r = None ->
        useAuth.profile (useAuth.view c')
        = AuthService.currentProfile (AuthService.this (useAuth.service c'))
        /\ flags (useAuth.view c')
           = (useAuth.hasRole c' "super_admin", useAuth.hasRole c' "admin",
              useAuth.hasRole c' "editor")
        /\ useAuth.authUser (useAuth.view c') = useAuth.authUser (useAuth.view c)
        /\ useAuth.session (useAuth.view c')
           = useAuth.session (useAuth.view c)).
Proof.
  destruct (signIn_returns supabase email password rememberMe
              (useAuth.service c)) as (r & w' & Hr & _).
  unfold useAuth.signIn. unfold_monad. rewrite on_service_run, Hr. simpl.
  destruct (SignInResult.user r) eqn:Hu, (SignInResult.error r) eqn:He;
    unfold_hook; eexists r, _; (split; [reflexivity |]);
    rewrite ?Hu, ?He; intros [u' Hu'] He'; try done.
  simpl. unfold useAuth.hasRole. simpl.
  destruct (updateRoles_other
    (AuthService.getCurrentProfile (AuthService.this w'))
    (useAuth.setProfile (AuthService.getCurrentProfile (AuthService.this w'))
       (useAuth.view c))) as (Ha & Hp & Hs & _).
  rewrite Ha, Hp, Hs. repeat split.
  rewrite updateRoles_flags. apply derived_hasRole.
Qed.

End HookBehaviour.

(** * Guards, navigation and the login page *)

Lemma coherent_chain (h : useAuth.state) :
  coherent h ->
  (useAuth.isSuperAdmin h = true -> useAuth.isAdmin h = true)
  /\ (useAuth.isAdmin h = true -> useAuth.isEditor h = true)
  /\ (useAuth.isEditor h = true ->
      exists p, useAuth.profile h = Some p
        /\ UserProfile.status p = "active"
        /\ UserProfile.role p ∈ ["super_admin"; "admin"; "editor"])
  /\ useAuth.loading h = useAuth.initializing h.
Proof.
  intros [Hf Hl]. unfold flags, derived in Hf.
  destruct (useAuth.profile h) as [p |];
    [| injection Hf as -> -> ->; by repeat split].
  case_bool_decide as Hs; [| injection Hf as -> -> ->; by repeat split].
  injection Hf as -> -> ->. rewrite !bool_decide_eq_true.
  repeat split; try tauto.
  intros Hr. exists p. repeat split; [done |].
  rewrite !elem_of_cons. tauto.
Qed.

Lemma navigation_matches_routes_at (h : useAuth.state) (path : string) :
  (useAuth.isSuperAdmin h = true -> useAuth.isAdmin h = true) ->
  (useAuth.isAdmin h = true -> useAuth.isEditor h = true) ->
  lets_through Protected h = true ->
  path ∈ AdminLayout.href <$> AdminLayout.navigation h
  <-> reaches path h = true.
Proof.
  destruct h as [au pr se lo ini ia ie isa]. simpl.
  intros H1 H2. unfold lets_through, App.ProtectedRoute. simpl.
  destruct ini; [done |].
  destruct isa, ia, ie; simpl; intros Hp;
    try done; try (by discriminate H1); try (by discriminate H2);
    unfold AdminLayout.navigation; simpl;
    rewrite !elem_of_cons, elem_of_nil;
    (split;
     [ intros Hin;
       repeat (destruct Hin as [-> | Hin]; [by vm_compute |]); done
     | unfold reaches, admin_routes; simpl list_find;
       repeat (case_decide;
               [ subst path; intros Hr;
                 first [ by (vm_compute in Hr; discriminate Hr)
                       | by repeat (first [left; reflexivity | right]) ]
               |]);
       done ]).
Qed.

Section Reachable.
Variables (supabase : Backend) (w : AuthService.world)
  (actions : list action).

Lemma reachable_coherent : coherent (reached supabase actions w).
Proof. unfold reached. apply after_coherent, initial_coherent. Qed.

(** Property X24.
    In every state the hook can reach the flags form a chain: a super
    admin is an admin, an admin is an editor, and an editor flag comes
    with a displayed active profile whose role is one of the three staff
    roles. *)
Theorem flags_form_a_chain :
  let h := reached supabase actions w in
  (useAuth.isSuperAdmin h = true -> useAuth.isAdmin h = true)
  /\ (useAuth.isAdmin h = true -> useAuth.isEditor h = true)
  /\ (useAuth.isEditor h = true ->
      exists p, useAuth.profile h = Some p
        /\ UserProfile.status p = "active"
        /\ UserProfile.role p ∈ ["super_admin"; "admin"; "editor"]).
Proof.
  intros h.
  destruct (coherent_chain h reachable_coherent) as (H1 & H2 & H3 & _).
  by repeat split.
Qed.

(** Property X25.
    The wrappers are nested: in every state the hook can reach, what
    SuperAdminOnlyRoute lets through AdminOnlyRoute lets through, and
    what AdminOnlyRoute lets through ProtectedRoute lets through. *)
Theorem guards_are_nested :
  let h := reached supabase actions w in
  (lets_through SuperAdminOnly h = true -> lets_through AdminOnly h = true)
  /\ (lets_through AdminOnly h = true -> lets_through Protected h = true).
Proof.
  intros h.
  destruct (coherent_chain h reachable_coherent) as (H1 & H2 & _ & _).
  unfold lets_through, App.ProtectedRoute, App.AdminOnlyRoute,
    App.SuperAdminOnlyRoute.
  destruct (useAuth.initializing h), (useAuth.isSuperAdmin h),
    (useAuth.isAdmin h), (useAuth.isEditor h); simpl; split; intros;
    try done; try (by discriminate H1); by discriminate H2.
Qed.

(** Property X26.
    AdminLayout decides as the ProtectedRoute around it: in every state
    the hook can reach it shows the loader where the guard shows the
    placeholder, goes to the same login path where the guard redirects,
    and shows the layout where the guard renders its children. *)
Theorem AdminLayout_agrees_with_ProtectedRoute :
  let h := reached supabase actions w in
  AdminLayout.render h
  = match App.ProtectedRoute tt h with
    | Placeholder => AdminLayout.Loader
    | Navigate to _ => AdminLayout.Redirect to
    | Children _ => AdminLayout.Layout (AdminLayout.navigation h)
    end.
Proof.
  intros h.
  destruct (coherent_chain h reachable_coherent) as (_ & H2 & H3 & Hl).
  unfold AdminLayout.render, App.ProtectedRoute. rewrite Hl.
  destruct (useAuth.initializing h); simpl; [done |].
  destruct (useAuth.isAdmin h), (useAuth.isEditor h); simpl.
  - by destruct (H3 eq_refl) as (p & -> & _).
  - by discriminate H2.
  - by destruct (H3 eq_refl) as (p & -> & _).
  - by rewrite orb_true_r.
Qed.

(** Property X27.
    The navigation shows exactly what can be reached: in every state of
    the hook in which the layout is displayed, a path is the target of a
    navigation entry if and only if it is a route under /admin whose
    wrappers all let the user through. *)
Theorem navigation_matches_routes (path : string) :
  let h := reached supabase actions w in
  lets_through Protected h = true ->
  path ∈ AdminLayout.href <$> AdminLayout.navigation h
  <-> reaches path h = true.
Proof.
  intros h.
  destruct (coherent_chain h reachable_coherent) as (H1 & H2 & _ & _).
  by apply navigation_matches_routes_at.
Qed.

(** Property X28.
    On each state the hook can reach, the login page and ProtectedRoute
    decide as complements of one another: on that state the login page's
    effect navigates to /admin exactly when ProtectedRoute lets through,
    and the page shows its form exactly when ProtectedRoute redirects to
    /admin/login.  The comparison is of the two decisions on one state;
    each component has state cells of its own, and nothing is said about
    two components whose cells differ. *)
Theorem login_page_complements_ProtectedRoute :
  let h := reached supabase actions w in
  (AdminLogin.redirect h = Some "/admin" <-> lets_through Protected h = true)
  /\ (AdminLogin.render h = AdminLogin.Form
      <-> App.ProtectedRoute tt h = Navigate "/admin/login" true).
Proof.
  intros h.
  destruct (coherent_chain h reachable_coherent) as (H1 & H2 & H3 & Hl).
  unfold AdminLogin.redirect, AdminLogin.render, lets_through,
    App.ProtectedRoute. rewrite Hl.
  destruct (useAuth.initializing h); simpl; [by split |].
  destruct (useAuth.isSuperAdmin h), (useAuth.isAdmin h),
    (useAuth.isEditor h); simpl;
    try (by discriminate H1); try (by discriminate H2);
    try (destruct (H3 eq_refl) as (p & -> & _); simpl; by split);
    rewrite andb_false_r; by split.
Qed.

End Reachable.

(** * Runs of the further properties *)

Lemma loadSystemSettings_defaults_witness :
  settings_unavailable offline fresh = true
  /\ AuthService.loadSystemSettings offline fresh
     = (Normal tt,
        AuthService.mkWorld
          (AuthService.mk None None (Some default_settings) false)
          [system_settings_select]).
Proof.
  split; [reflexivity |].
  exact (loadSystemSettings_defaults offline fresh eq_refl).
Defined.

Lemma loadSystemSettings_last_row_wins_witness :
  ("__proto__" ∉ ["global_signup_enabled"; "password_min_length"])
  /\ (Js.JNull ∉ [Js.JString "false"; Js.JNumber "12"])
  /\ AuthService.settings
       (AuthService.this (AuthService.loadSystemSettings refusing fresh).2)
     = Some (SystemSettings.mk (SBool false) (SBool false) (SNumber "12")
               (SNumber "5") (SNumber "24")).
Proof.
  assert (H : "__proto__" ∉ ["global_signup_enabled"; "password_min_length"])
    by decide_closed.
  assert (H' : Js.JNull ∉ [Js.JString "false"; Js.JNumber "12"]).
  { intros Hin.
    repeat (apply elem_of_cons in Hin as [Hin | Hin]; [discriminate Hin |]).
    by apply elem_of_nil in Hin. }
  split; [exact H |]. split; [exact H' |].
  exact (loadSystemSettings_last_row_wins refusing fresh
    (Some [mkSettingRow "global_signup_enabled" (Js.JString "false");
           mkSettingRow "password_min_length" (Js.JNumber "12")])
    eq_refl H H').
Defined.

Lemma isSignupEnabled_open_on_failure_witness :
  AuthService.settings (AuthService.this fresh) = None
  /\ settings_unavailable offline fresh = true
  /\ (AuthService.isSignupEnabled offline fresh).1 = Normal (SBool true).
Proof.
  split; [reflexivity |]. split; [reflexivity |].
  exact (isSignupEnabled_open_on_failure offline fresh eq_refl eq_refl).
Defined.

Lemma loadUserProfile_creates_missing_witness :
  AuthService.loadUserProfile provisioning "u1" fresh
  = (Normal tt,
     AuthService.mkWorld
       (AuthService.mk None (Some (sample_profile "user" "active")) None
          false)
       [ user_profiles_select_single "u1"; auth_getUser;
         user_profiles_insert_single (default_profile_data "u1") ]).
Proof.
  exact (loadUserProfile_creates_missing provisioning "u1" fresh None
    (Some (sample_profile "user" "active"))
    (Js.Error "no rows" (Some "PGRST116")) (Some alice, None)
    eq_refl eq_refl eq_refl eq_refl).
Defined.

Lemma loadUserProfile_failure_clears_witness :
  AuthService.loadUserProfile offline "u1" admin_world
  = (Normal tt,
     AuthService.mkWorld (AuthService.mk (Some alice) None None true)
       [user_profiles_select_single "u1"]).
Proof.
  exact (loadUserProfile_failure_clears offline "u1" admin_world I).
Defined.

Lemma loadUserProfile_creation_failure_keeps_witness :
  AuthService.currentProfile
    (AuthService.this
       (AuthService.loadUserProfile read_only "u2" admin_world).2)
  = Some (sample_profile "admin" "active").
Proof.
  exact (f_equal AuthService.currentProfile
    (loadUserProfile_creation_failure_keeps read_only "u2" admin_world None
       (Js.Error "no rows" (Some "PGRST116")) eq_refl eq_refl I)).
Defined.

Lemma signIn_records_failure_witness :
  AuthService.signIn refusing "alice@example.org" "guess" false fresh
  = (Normal (SignInResult.mk None None (Some invalid_credentials)),
     AuthService.mkWorld AuthService.new
       [ auth_signInWithPassword "alice@example.org" "guess";
         login_attempts_insert "alice@example.org" false
           (Some "Invalid login credentials") "agent" ]).
Proof.
  exact (signIn_records_failure refusing "alice@example.org" "guess" false
    fresh (mkAuthData None None) invalid_credentials eq_refl).
Defined.

Lemma signIn_success_witness :
  exists w' mid stamp,
    AuthService.signIn provisioning "alice@example.org" "secret" false fresh
    = (Normal (SignInResult.mk (Some alice)
                 (Some (Session.mk alice "token")) None), w')
    /\ AuthService.currentUser (AuthService.this w') = Some alice
    /\ AuthService.settings (AuthService.this w') = None
    /\ AuthService.initialized (AuthService.this w') = false
    /\ AuthService.calls w'
       = ([ auth_signInWithPassword "alice@example.org" "secret";
            user_profiles_select_single "u1" ]
          ++ mid
          ++ [ user_profiles_update_last_login "u1" stamp;
               login_attempts_insert "alice@example.org" true None "agent" ])%list.
Proof.
  exact (signIn_success provisioning "alice@example.org" "secret" false
    fresh alice (Some (Session.mk alice "token")) eq_refl).
Defined.

Lemma signOut_failure_keeps_cache_witness :
  signOut_failure provisioning (useAuth.service editor_signed_in)
  = Some network_error
  /\ useAuth.view (useAuth.signOut provisioning editor_signed_in).2
     = useAuth.view editor_signed_in.
Proof.
  split; [reflexivity |].
  exact (f_equal (fun x => useAuth.view x.2)
    (signOut_failure_keeps_cache provisioning editor_signed_in
       network_error eq_refl)).
Defined.

Lemma createUser_writes_after_creation_witness :
  AuthService.hasRole (AuthService.this admin_world) "admin" = true
  /\ exists r w',
       AuthService.createUser refusing "bob@example.org" "secret" "Bob"
         "editor" admin_world = (Normal r, w')
       /\ AuthService.calls w'
          = [ auth_admin_createUser "bob@example.org" "secret" "Bob";
              user_profiles_upsert "u1" "Bob" "editor" ].
Proof.
  split; [reflexivity |].
  destruct (createUser_writes_after_creation refusing "bob@example.org"
              "secret" "Bob" "editor" admin_world eq_refl)
    as (r & w' & Hrun & _ & Hcalls).
  exists r, w'. split; [exact Hrun | exact Hcalls].
Defined.

Lemma createUser_ignores_upsert_error_witness :
  upsert_profile read_only
    [ auth_admin_createUser "bob@example.org" "secret" "Bob";
      user_profiles_upsert "u1" "Bob" "editor" ]
  = Resolved (Some network_error)
  /\ (AuthService.createUser read_only "bob@example.org" "secret" "Bob"
        "editor" admin_world).1
     = Normal (UserResult.mk (Some alice) None).
Proof.
  split; [reflexivity |].
  exact (createUser_ignores_upsert_error read_only "bob@example.org"
    "secret" "Bob" "editor" admin_world alice eq_refl eq_refl).
Defined.

Lemma initializing_never_returns_witness :
  useAuth.initializing (useAuth.view editor_signed_in) = false
  /\ useAuth.initializing
       (useAuth.view (after refusing [CallSignOut; Mount] editor_signed_in))
     = false.
Proof.
  split; [reflexivity |].
  exact (initializing_never_returns refusing [CallSignOut; Mount]
    editor_signed_in eq_refl).
Defined.

Lemma effect_ends_initializing_witness :
  useAuth.initializing (useAuth.view (mount fresh)) = true
  /\ useAuth.initializing (useAuth.view (handle offline Mount (mount fresh)))
     = false
  /\ useAuth.loading (useAuth.view (handle offline Mount (mount fresh)))
     = false.
Proof.
  split; [reflexivity |].
  exact (effect_ends_initializing offline Mount (mount fresh) eq_refl I).
Defined.


Lemma listener_signed_out_witness :
  useAuth.mounted editor_signed_in = true
  /\ useAuth.onAuthStateChange refusing "SIGNED_OUT" None editor_signed_in
     = (Normal tt,
        useAuth.mkComponent (useAuth.service editor_signed_in)
          (useAuth.mk None None None false false false false false) true).
Proof.
  split; [reflexivity |].
  exact (listener_signed_out refusing "SIGNED_OUT" editor_signed_in eq_refl).
Defined.

Lemma listener_shows_cached_profile_witness :
  let bob := User.mk "u2" (Some "bob@example.org") in
  let c' := (useAuth.onAuthStateChange staffed "SIGNED_IN"
               (Some (Session.mk bob "token2")) editor_signed_in).2 in
  useAuth.authUser (useAuth.view c') = Some bob
  /\ useAuth.profile (useAuth.view c')
     = Some (sample_profile "editor" "active")
  /\ AuthService.calls (useAuth.service c') = [].
Proof.
  intros bob c'. subst c'.
  rewrite (listener_shows_cached_profile staffed "SIGNED_IN"
             (Session.mk bob "token2") editor_signed_in eq_refl eq_refl).
  by repeat split.
Defined.

Lemma mount_effect_shows_session_witness :
  let c' := (useAuth.initialize staffed (mount fresh)).2 in
  useAuth.profile (useAuth.view c') = Some (sample_profile "admin" "active")
  /\ flags (useAuth.view c') = (false, true, true)
  /\ useAuth.initializing (useAuth.view c') = false.
Proof.
  intros c'. subst c'.
  rewrite (mount_effect_shows_session staffed
             (Some (Session.mk alice "token")) (mount fresh)
             eq_refl eq_refl).
  by repeat split.
Defined.

Lemma mount_effect_drops_stale_token_witness :
  AuthService.calls
    (useAuth.service (useAuth.initialize stale_token (mount fresh)).2)
  = [ auth_getSession; system_settings_select; auth_getSession;
      auth_signOut ].
Proof.
  exact (mount_effect_drops_stale_token stale_token None
    (Js.Error "AuthApiError: refresh_token_not_found" None) (mount fresh)
    eq_refl eq_refl).
Defined.

Lemma navigation_matches_routes_witness :
  let h := reached staffed [Mount] fresh in
  lets_through Protected h = true
  /\ ("/admin/team" ∈ AdminLayout.href <$> AdminLayout.navigation h)
  /\ reaches "/admin/team" h = true
  /\ reaches "/admin/system" h = false
  /\ ("/admin/system" ∉ AdminLayout.href <$> AdminLayout.navigation h).
Proof.
  intros h.
  assert (Hp : lets_through Protected h = true) by reflexivity.
  split; [exact Hp |].
  split; [| split; [reflexivity | split; [reflexivity |]]].
  - apply (navigation_matches_routes staffed fresh [Mount] "/admin/team" Hp).
    reflexivity.
  - intros Hin.
    apply (navigation_matches_routes staffed fresh [Mount] "/admin/system" Hp)
      in Hin.
    discriminate Hin.
Defined.

Lemma hook_signIn_success_shows_profile_witness :
  let c' := (useAuth.signIn staffed "alice@example.org" "secret" false
               (mount fresh)).2 in
  useAuth.profile (useAuth.view c') = Some (sample_profile "admin" "active")
  /\ flags (useAuth.view c') = (false, true, true)
  /\ useAuth.authUser (useAuth.view c') = None.
Proof.
  intros c'.
  destruct (hook_signIn_success_shows_profile staffed "alice@example.org"
              "secret" false (mount fresh)) as (r & c1 & Hrun & H).
  subst c'. rewrite Hrun. simpl.
  vm_compute in Hrun. injection Hrun as <- <-.
  destruct (H (ex_intro _ alice eq_refl) eq_refl) as (Hp & Hf & Ha & _).
  split; [exact Hp |]. split; [exact Hf | exact Ha].
Defined.

(** Two inherited members are compared by their string forms: a cached
    role that names one has itself, and [valueOf] sorts after
    [toString]. *)
Example hasRole_inherited_against_inherited :
  AuthService.hasRole (cached (sample_profile "toString" "active")) "toString"
  = true
  /\ AuthService.hasRole (cached (sample_profile "valueOf" "active"))
       "toString" = true
  /\ AuthService.hasRole (cached (sample_profile "toString" "active"))
       "valueOf" = false
  /\ AuthService.hasRole (cached (sample_profile "toString" "active")) "user"
     = false.
Proof. repeat split; reflexivity. Qed.
